(** * pyIslam prayer times: a model of [pyIslam/praytimes.py]

    The two classes of the module, [PrayerConf] and [Prayer], are embedded
    as records with their methods as functions.

    - Python floats are read as real numbers: rounding, infinities and NaN
      are outside the model.
    - The exceptions the module can raise are an explicit error result:
      its own two [Exception]s, the [ZeroDivisionError] of a float
      division, the [ValueError] of [math.sqrt] on a negative number and
      the [ValueError] of [datetime.time] on a field out of range.
    - The dictionary of zenith references is a finite map.
    - The date is opaque; the Julian Day and the Hijri month come from
      modules outside [praytimes.py] and are parameters. *)

From Stdlib Require Import Reals Rtrigo_facts Lra Lia ZArith String.
From stdpp Require Import gmap.

Open Scope R_scope.

(** ** The Python runtime the module relies on *)

Module Py.

(** The exceptions that can leave the module. *)
Inductive exn : Type :=
| CorrectionValueException  (* Exception('Correction value exception') *)
| ShiftException            (* Exception("'shift' value must be an 'int' or 'float'") *)
| ZeroDivisionError         (* float division by zero *)
| MathDomainError           (* ValueError raised by math.sqrt *)
| TimeRangeError            (* ValueError raised by datetime.time *)
| TypeError
| KeyError.

Definition result (A : Type) : Type := (exn + A)%type.

Definition ret {A} (a : A) : result A := inr a.
Definition raise {A} (e : exn) : result A := inl e.
Definition bind {A B} (m : result A) (k : A -> result B) : result B :=
  match m with
  | inl e => inl e
  | inr a => k a
  end.

#[global] Instance result_ret : MRet result := @ret.
#[global] Instance result_bind : MBind result :=
  fun A B (k : A -> result B) (m : result A) => bind m k.

Definition returns {A} (m : result A) : Prop := exists a, m = inr a.
Definition raises {A} (m : result A) : Prop := exists e, m = inl e.

(** Dynamically typed values, as far as an argument of the accessors
    can be told apart by [isinstance]. *)
Inductive value : Type :=
| VInt (z : Z)
| VFloat (r : R)
| VBool (b : bool)
| VStr (s : string)
| VNone.

Definition isinstance_float (v : value) : bool :=
  match v with VFloat _ => true | _ => false end.

(** [bool] is a subclass of [int]. *)
Definition isinstance_int (v : value) : bool :=
  match v with VInt _ | VBool _ => true | _ => false end.

(** The number a value stands for in an arithmetic expression. *)
Definition number (v : value) : result R :=
  match v with
  | VInt z => ret (IZR z)
  | VFloat r => ret r
  | VBool b => ret (if b then 1 else 0)
  | VStr _ | VNone => raise TypeError
  end.

(** [x / y] on floats. *)
Definition truediv (x y : R) : result R :=
  if Req_dec_T y 0 then raise ZeroDivisionError else ret (x / y).

(** [math.sqrt]. *)
Definition math_sqrt (x : R) : result R :=
  if Rlt_dec x 0 then raise MathDomainError else ret (sqrt x).

(** [math.floor]. *)
Definition floor (x : R) : Z := Zfloor x.

(** [v in range(lo, hi)] for an integer [v]. *)
Definition in_range (v lo hi : Z) : bool := (lo <=? v)%Z && (v <? hi)%Z.

(** [datetime.time]: the constructor checks each field. *)
Record time : Type := mk_time { hour : Z; minute : Z; second : Z }.

Definition datetime_time (h m s : Z) : result time :=
  if in_range h 0 24 && in_range m 0 60 && in_range s 0 60
  then ret (mk_time h m s)
  else raise TimeRangeError.

End Py.

Import Py.

(** ** [pyIslam.baselib] *)

(** Modelled from the spec: [dsin] of [pyIslam.baselib] is not part of the
    sources at hand; it is the sine of an angle given in degrees. *)
Definition dsin (x : R) : R := sin (x * PI / 180).

(** Modelled from the spec: [dcos] of [pyIslam.baselib] is not part of the
    sources at hand; it is the cosine of an angle given in degrees. *)
Definition dcos (x : R) : R := cos (x * PI / 180).

(** ** class PrayerConf *)

Record PrayerConf : Type := mkPrayerConf {
  longitude : R;
  latitude : R;
  timezone : R;
  sherookZenith : R;
  maghrebZenith : R;
  asrMadhab : Z;
  middleLongitude : R;
  longitudeDifference : R;
  summerTime : bool;
  fajrZenith : R;
  ishaaZenith : option R
}.

Definition zeniths : gmap Z (R * option R) :=
  <[1%Z := (108.0, Some 108.0)]>
  (<[2%Z := (108.0, Some 107.0)]>
  (<[3%Z := (109.5, Some 107.5)]>
  (<[4%Z := (108.5, None)]>
  (<[5%Z := (105.0, Some 105.0)]> ∅)))).

(** [PrayerConf.__init__] *)
Definition PrayerConf_init (longitude latitude timezone : R)
    (zenith_ref asr_madhab : Z) (enable_summer_time : bool)
  : result PrayerConf :=
  let sherookZenith := 90.83333 in
  let maghrebZenith := 90.83333 in
  let asrMadhab := if (asr_madhab =? 2)%Z then asr_madhab else 1%Z in
  let middleLongitude := timezone * 15 in
  let longitudeDifference := (middleLongitude - longitude) / 15 in
  let summerTime := enable_summer_time in
  dflt ← match zeniths !! 3%Z with
          | Some z => ret z
          | None => raise KeyError
          end;
  let '(fajrZenith, ishaaZenith) := default dflt (zeniths !! zenith_ref) in
  ret (mkPrayerConf longitude latitude timezone sherookZenith maghrebZenith
         asrMadhab middleLongitude longitudeDifference summerTime
         fajrZenith ishaaZenith).

(** ** class Prayer *)

Section Prayer.

(** The calendar date is opaque here; it is only handed to the two
    collaborators below, which live outside [praytimes.py]. *)
Variable Date : Type.
Variable gregorianToJulianDay : Date -> R.
(** [HijriDate.getHijri(date, correction_val).month] *)
Variable getHijri_month : Date -> Z -> Z.

Record Prayer : Type := mkPrayer {
  conf : PrayerConf;
  date : Date;
  correction_val : Z
}.

(** [Prayer.__init__] *)
Definition Prayer_init (conf : PrayerConf) (dat : Date) (correction_val : Z)
  : result Prayer :=
  if negb (in_range correction_val (-2) 3)
  then raise CorrectionValueException
  else ret (mkPrayer conf dat correction_val).

Definition __equationOfTime (self : Prayer) : R :=
  let n := gregorianToJulianDay (date self) - 2451544.5 in
  let g := 357.528 + 0.9856003 * n in
  let c := 1.9148 * dsin g + 0.02 * dsin (2 * g) + 0.0003 * dsin (3 * g) in
  let lamda := 280.47 + 0.9856003 * n + c in
  let r := -2.468 * dsin (2 * lamda)
           + 0.053 * dsin (4 * lamda)
           + 0.0014 * dsin (6 * lamda) in
  (c + r) * 4.

Definition __sunDeclination (self : Prayer) : result R :=
  let n := gregorianToJulianDay (date self) - 2451544.5 in
  let epsilon := 23.44 - 0.0000004 * n in
  let l := 280.466 + 0.9856474 * n in
  let g := 357.528 + 0.9856003 * n in
  let lamda := l + 1.915 * dsin g + 0.02 * dsin (2 * g) in
  let x := dsin epsilon * dsin lamda in
  rt ← math_sqrt (- x * x + 1);
  q ← truediv x rt;
  ret ((180 / (4 * atan 1)) * atan q).

Definition __asrZenith (self : Prayer) : result R :=
  delta ← __sunDeclination self;
  let x := dsin (latitude (conf self)) * dsin delta
           + dcos (latitude (conf self)) * dcos delta in
  rt ← math_sqrt (- x * x + 1);
  q ← truediv x rt;
  let a := atan q in
  inv ← truediv 1 (tan a);
  let x := IZR (asrMadhab (conf self)) + inv in
  ret (90 - (180 / PI) * (atan x + 2 * atan 1)).

Definition __dohrTime (self : Prayer) : R :=
  let ld := longitudeDifference (conf self) in
  let time_eq := __equationOfTime self in
  let duhr_t := 12 + ld + time_eq / 60 in
  duhr_t.

Definition __prayerTime (self : Prayer) (zenith : R) : result R :=
  delta ← __sunDeclination self;
  s ← truediv (dcos zenith - dsin (latitude (conf self)) * dsin delta)
              (dcos (latitude (conf self)) * dcos delta);
  rt ← math_sqrt (- s * s + 1);
  q ← truediv (- s) rt;
  ret ((180 / PI * (atan q + PI / 2)) / 15).

Definition __hoursToTime (val : R) (shift : value) (summer_time : bool)
  : result time :=
  if negb (isinstance_float shift || isinstance_int shift)
  then raise ShiftException
  else
    let st := if summer_time then 1%Z else 0%Z in
    sh ← number shift;
    let hours := val + sh / 3600 in
    let minutes := (hours - IZR (floor hours)) * 60 in
    let seconds := (minutes - IZR (floor minutes)) * 60 in
    datetime_time (floor hours + st) (floor minutes) (floor seconds).

(** The decimal-hour value each accessor hands to [__hoursToTime]. *)

Definition fajr_t (self : Prayer) : result R :=
  t ← __prayerTime self (fajrZenith (conf self));
  ret (__dohrTime self - t).

Definition sherook_t (self : Prayer) : result R :=
  t ← __prayerTime self (sherookZenith (conf self));
  ret (__dohrTime self - t).

Definition dohr_t (self : Prayer) : result R :=
  ret (__dohrTime self).

Definition asr_t (self : Prayer) : result R :=
  z ← __asrZenith self;
  t ← __prayerTime self z;
  ret (__dohrTime self + t).

Definition maghreb_t (self : Prayer) : result R :=
  t ← __prayerTime self (maghrebZenith (conf self));
  ret (__dohrTime self + t).

(** In the branch for an absent Ishaa zenith the assignment ends with
    its line; the line after it is an expression statement of its own
    (a unary plus), evaluated and dropped. *)
Definition ishaa_t (self : Prayer) : result R :=
  match ishaaZenith (conf self) with
  | None =>
      if (getHijri_month (date self) (correction_val self) =? 9)%Z then
        let ishaa_t := __dohrTime self in
        (t ← __prayerTime self (maghrebZenith (conf self)); ret (t + 2.0)) ;;
        ret ishaa_t
      else
        let ishaa_t := __dohrTime self in
        (t ← __prayerTime self (maghrebZenith (conf self)); ret (t + 1.5)) ;;
        ret ishaa_t
  | Some zenith =>
      ishaa_t ← __prayerTime self zenith;
      let ishaa_t := __dohrTime self + ishaa_t in
      ret ishaa_t
  end.

(** The six accessors. *)

Definition fajrTime (self : Prayer) (shift : value) : result time :=
  val ← fajr_t self; __hoursToTime val shift (summerTime (conf self)).

Definition sherookTime (self : Prayer) (shift : value) : result time :=
  val ← sherook_t self; __hoursToTime val shift (summerTime (conf self)).

Definition dohrTime (self : Prayer) (shift : value) : result time :=
  val ← dohr_t self; __hoursToTime val shift (summerTime (conf self)).

Definition asrTime (self : Prayer) (shift : value) : result time :=
  val ← asr_t self; __hoursToTime val shift (summerTime (conf self)).

Definition maghrebTime (self : Prayer) (shift : value) : result time :=
  val ← maghreb_t self; __hoursToTime val shift (summerTime (conf self)).

Definition ishaaTime (self : Prayer) (shift : value) : result time :=
  val ← ishaa_t self; __hoursToTime val shift (summerTime (conf self)).

End Prayer.

Arguments mkPrayer {Date} conf date correction_val.
Arguments conf {Date} p.
Arguments date {Date} p.
Arguments correction_val {Date} p.
Arguments Prayer_init {Date} conf dat correction_val.
Arguments __equationOfTime {Date} gregorianToJulianDay self.
Arguments __sunDeclination {Date} gregorianToJulianDay self.
Arguments __asrZenith {Date} gregorianToJulianDay self.
Arguments __dohrTime {Date} gregorianToJulianDay self.
Arguments __prayerTime {Date} gregorianToJulianDay self zenith.
Arguments fajr_t {Date} gregorianToJulianDay self.
Arguments sherook_t {Date} gregorianToJulianDay self.
Arguments dohr_t {Date} gregorianToJulianDay self.
Arguments asr_t {Date} gregorianToJulianDay self.
Arguments maghreb_t {Date} gregorianToJulianDay self.
Arguments ishaa_t {Date} gregorianToJulianDay getHijri_month self.
Arguments fajrTime {Date} gregorianToJulianDay self shift.
Arguments sherookTime {Date} gregorianToJulianDay self shift.
Arguments dohrTime {Date} gregorianToJulianDay self shift.
Arguments asrTime {Date} gregorianToJulianDay self shift.
Arguments maghrebTime {Date} gregorianToJulianDay self shift.
Arguments ishaaTime {Date} gregorianToJulianDay getHijri_month self shift.

(** ** Quantities named in the statements *)

(** The test [__hoursToTime] makes on its shift. *)
Definition numeric (shift : value) : bool :=
  isinstance_float shift || isinstance_int shift.

(** The largest finite float, [sys.float_info.max]: an [int] whose
    quotient by 3600 is beyond it makes [shift/3600] raise. *)
Definition float_max : R := (2 - / 2 ^ 52) * 2 ^ 1023.

(** The sine of the sun declination for a Julian Day: the [x] of
    [__sunDeclination]. *)
Definition sin_declination (jd : R) : R :=
  let n := jd - 2451544.5 in
  let epsilon := 23.44 - 0.0000004 * n in
  let l := 280.466 + 0.9856474 * n in
  let g := 357.528 + 0.9856003 * n in
  let lamda := l + 1.915 * dsin g + 0.02 * dsin (2 * g) in
  dsin epsilon * dsin lamda.

(** The cosine of the hour angle at which the sun stands at [zenith]:
    the [s] of [__prayerTime]. *)
Definition cos_hour_angle (lat delta zenith : R) : R :=
  (dcos zenith - dsin lat * dsin delta) / (dcos lat * dcos delta).

(** Hours between solar noon and the hour angle of cosine [s]. *)
Definition hour_angle (s : R) : R := 180 / PI * acos s / 15.

(** The sine of the sun altitude at noon: the first [x] of [__asrZenith]. *)
Definition sin_noon_altitude (lat delta : R) : R :=
  dsin lat * dsin delta + dcos lat * dcos delta.

(** The Asr zenith as the specification words it:
    90 - atan(madhabFactor + 1/tan(a)), in degrees. *)
Definition spec_asrZenithDegrees (lat decl madhabFactor : R) : R :=
  let x := dsin lat * dsin decl + dcos lat * dcos decl in
  let a := atan (x / sqrt (1 - x²)) in
  90 - 180 / PI * atan (madhabFactor + 1 / tan a).

(** ** Concrete inputs

    A date of the examples is given by what the two collaborators answer
    for it: its Julian Day and its Hijri month. *)

Record sample_date : Type := mk_sample_date {
  sample_julian_day : R;
  sample_hijri_month : Z
}.

Definition sample_getHijri_month (d : sample_date) (correction_val : Z) : Z :=
  sample_hijri_month d.

(** 1 January 2000 (Julian Day 2451544.5), the 24th of Ramadan 1420. *)
Definition new_year_2000 : sample_date := mk_sample_date 2451544.5 9.

(** Configurations of the examples, as [PrayerConf.__init__] builds them. *)

Definition equator_egyptian : PrayerConf :=
  mkPrayerConf 0 0 0 90.83333 90.83333 1 (0 * 15) ((0 * 15 - 0) / 15)
    false 109.5 (Some 107.5).

Definition equator_hanafi : PrayerConf :=
  mkPrayerConf 0 0 0 90.83333 90.83333 2 (0 * 15) ((0 * 15 - 0) / 15)
    false 109.5 (Some 107.5).

Definition equator_umm_al_qura : PrayerConf :=
  mkPrayerConf 0 0 0 90.83333 90.83333 1 (0 * 15) ((0 * 15 - 0) / 15)
    false 108.5 None.

Definition antarctic_egyptian : PrayerConf :=
  mkPrayerConf 0 (-89.5) 0 90.83333 90.83333 1 (0 * 15) ((0 * 15 - 0) / 15)
    false 109.5 (Some 107.5).

Definition antarctic_umm_al_qura : PrayerConf :=
  mkPrayerConf 0 (-89.5) 0 90.83333 90.83333 1 (0 * 15) ((0 * 15 - 0) / 15)
    false 108.5 None.

(** ** Configuration and construction *)

(** One step of the error monad. *)
Ltac run := cbn [mbind result_bind bind ret raise].

Lemma zeniths_lookup_unknown (zenith_ref : Z) :
  (zenith_ref < 1 \/ 5 < zenith_ref)%Z -> zeniths !! zenith_ref = None.
Proof.
  intros Hout. unfold zeniths.
  repeat (rewrite lookup_insert_ne by lia).
  apply lookup_empty.
Qed.

(** The Egyptian entry is in the table, so looking up the default never
    fails and construction always returns. *)
Lemma PrayerConf_init_returns lon lat tz zenith_ref asr_madhab st :
  exists c, PrayerConf_init lon lat tz zenith_ref asr_madhab st = inr c
    /\ (asrMadhab c = 1%Z \/ asrMadhab c = 2%Z)
    /\ (exists k, zeniths !! k = Some (fajrZenith c, ishaaZenith c))
    /\ longitudeDifference c = (tz * 15 - lon) / 15
    /\ latitude c = lat /\ summerTime c = st.
Proof.
  unfold PrayerConf_init.
  change (zeniths !! 3%Z) with (Some (109.5, Some 107.5)). run.
  destruct (zeniths !! zenith_ref) as [[fz iz] |] eqn:Hlook; cbn [default].
  - eexists; split; [reflexivity |]. cbn.
    repeat split; try reflexivity.
    + destruct (Z.eqb_spec asr_madhab 2); [right | left]; congruence.
    + exists zenith_ref. exact Hlook.
  - eexists; split; [reflexivity |]. cbn.
    repeat split; try reflexivity.
    + destruct (Z.eqb_spec asr_madhab 2); [right | left]; congruence.
    + exists 3%Z. reflexivity.
Qed.

(** C10: a zenith reference outside 1..5 and a madhab other than 2 raise
    nothing: construction returns a configuration holding the Egyptian
    entry (109.5, 107.5) and the Shafii madhab (1); the madhab is one of
    the two known ones and the pair of zeniths is an entry of the table. *)
Theorem PrayerConf_init_unrecognized lon lat tz zenith_ref asr_madhab st :
  (zenith_ref < 1 \/ 5 < zenith_ref)%Z ->
  asr_madhab <> 2%Z ->
  exists c, PrayerConf_init lon lat tz zenith_ref asr_madhab st = inr c
    /\ fajrZenith c = 109.5 /\ ishaaZenith c = Some 107.5
    /\ asrMadhab c = 1%Z
    /\ (asrMadhab c = 1%Z \/ asrMadhab c = 2%Z)
    /\ zeniths !! 3%Z = Some (fajrZenith c, ishaaZenith c).
Proof.
  intros Hout Hmadhab. unfold PrayerConf_init.
  rewrite (zeniths_lookup_unknown _ Hout).
  change (zeniths !! 3%Z) with (Some (109.5, Some 107.5)).
  run; cbn [default].
  destruct (Z.eqb_spec asr_madhab 2) as [Heq | _]; [contradiction |].
  eexists; split; [reflexivity |]. cbn. repeat split; auto.
Qed.

(** Zenith reference 99 and madhab 5, for Cairo (31.2 E, 30.0 N, UTC+2). *)
Lemma PrayerConf_init_unrecognized_99 :
  exists c, PrayerConf_init 31.2 30.0 2 99 5 false = inr c
    /\ fajrZenith c = 109.5 /\ ishaaZenith c = Some 107.5
    /\ asrMadhab c = 1%Z
    /\ (asrMadhab c = 1%Z \/ asrMadhab c = 2%Z)
    /\ zeniths !! 3%Z = Some (fajrZenith c, ishaaZenith c).
Proof.
  apply (PrayerConf_init_unrecognized 31.2 30.0 2 99 5 false); lia.
Defined.

Section Construction.

Context {Date : Type}.

Lemma in_range_spec (v lo hi : Z) :
  in_range v lo hi = true <-> (lo <= v < hi)%Z.
Proof.
  unfold in_range. rewrite andb_true_iff, Z.leb_le, Z.ltb_lt. tauto.
Qed.

(** C8: constructing the engine raises exactly when the correction value
    lies outside -2..2; otherwise the engine returned is the one holding
    the configuration, the date and that correction value.  A raise leaves
    no engine behind: the result is the exception alone. *)
Theorem Prayer_init_correction (conf0 : PrayerConf) (dat : Date) (c : Z) :
  (raises (Prayer_init conf0 dat c) <-> (c < -2 \/ 2 < c)%Z)
  /\ (Prayer_init conf0 dat c = inl CorrectionValueException
      \/ Prayer_init conf0 dat c = inr (mkPrayer conf0 dat c))
  /\ ((-2 <= c <= 2)%Z <->
      exists p, Prayer_init conf0 dat c = inr p /\ correction_val p = c
                /\ conf p = conf0 /\ date p = dat).
Proof.
  unfold Prayer_init, raises.
  destruct (in_range c (-2) 3) eqn:Hr; cbn [negb].
  - apply in_range_spec in Hr. split; [| split].
    + split; [intros [e He]; discriminate | lia].
    + right. reflexivity.
    + split; [| lia]. intros _. eexists. split; [reflexivity | cbn; auto].
  - assert (Hout : ~ (-2 <= c < 3)%Z).
    { rewrite <- in_range_spec. congruence. }
    split; [| split].
    + split; [lia |]. intros _. eexists. reflexivity.
    + left. reflexivity.
    + split; [lia |]. intros [p [Hp _]]. discriminate.
Qed.

End Construction.

(** The correction values 3 and -3 raise; -2, -1, 0, 1 and 2 are stored. *)
Example Prayer_init_values :
  Prayer_init equator_egyptian new_year_2000 3 = inl CorrectionValueException
  /\ Prayer_init equator_egyptian new_year_2000 (-3) = inl CorrectionValueException
  /\ Prayer_init equator_egyptian new_year_2000 (-2)
     = inr (mkPrayer equator_egyptian new_year_2000 (-2))
  /\ Prayer_init equator_egyptian new_year_2000 (-1)
     = inr (mkPrayer equator_egyptian new_year_2000 (-1))
  /\ Prayer_init equator_egyptian new_year_2000 0
     = inr (mkPrayer equator_egyptian new_year_2000 0)
  /\ Prayer_init equator_egyptian new_year_2000 1
     = inr (mkPrayer equator_egyptian new_year_2000 1)
  /\ Prayer_init equator_egyptian new_year_2000 2
     = inr (mkPrayer equator_egyptian new_year_2000 2).
Proof. repeat split. Qed.

(** ** The time converter *)

Section Conversion.

(** The fractional part of a real, scaled by 60, floors into 0..59. *)
Lemma floor_sixtieth (x : R) :
  (0 <= floor ((x - IZR (floor x)) * 60) < 60)%Z.
Proof.
  unfold floor.
  pose proof (Zfloor_bound x) as Hx.
  pose proof (Zfloor_bound ((x - IZR (Zfloor x)) * 60)) as Hm.
  split.
  - apply Zfloor_lub. simpl. lra.
  - apply lt_IZR. lra.
Qed.

Lemma numeric_number (shift : value) :
  numeric shift = true <-> exists sh, number shift = inr sh.
Proof.
  destruct shift; cbn; split; try discriminate; try (intros [sh Hsh]; discriminate);
    intros _; eauto.
Qed.

Lemma hoursToTime_non_numeric (val : R) (shift : value) (st : bool) :
  numeric shift = false -> __hoursToTime val shift st = inl ShiftException.
Proof.
  unfold __hoursToTime, numeric. intros ->. reflexivity.
Qed.

Lemma hoursToTime_numeric (val : R) (shift : value) (st : bool) (sh : R) :
  number shift = inr sh ->
  __hoursToTime val shift st =
    let hours := val + sh / 3600 in
    let minutes := (hours - IZR (floor hours)) * 60 in
    let seconds := (minutes - IZR (floor minutes)) * 60 in
    datetime_time (floor hours + (if st then 1 else 0))
                  (floor minutes) (floor seconds).
Proof.
  intros Hsh. unfold __hoursToTime.
  assert (Hnum : numeric shift = true) by (apply numeric_number; eauto).
  unfold numeric in Hnum. rewrite Hnum, Hsh. reflexivity.
Qed.

Lemma datetime_time_hour (h m s : Z) :
  (0 <= m < 60)%Z -> (0 <= s < 60)%Z ->
  datetime_time h m s =
    if in_range h 0 24 then inr (mk_time h m s) else inl TimeRangeError.
Proof.
  intros Hm Hs. unfold datetime_time.
  apply in_range_spec in Hm, Hs. rewrite Hm, Hs.
  destruct (in_range h 0 24); reflexivity.
Qed.

(** With the hour in 0..23 the converter returns the three floors. *)
Lemma hoursToTime_in_range (val : R) (shift : value) (st : bool) (sh : R) :
  number shift = inr sh ->
  (0 <= floor (val + sh / 3600) + (if st then 1 else 0) < 24)%Z ->
  returns (__hoursToTime val shift st).
Proof.
  intros Hsh Hh. rewrite (hoursToTime_numeric _ _ _ _ Hsh). cbv zeta.
  rewrite datetime_time_hour by apply floor_sixtieth.
  apply in_range_spec in Hh. rewrite Hh. eexists. reflexivity.
Qed.

(** With the hour outside 0..23 the converter raises. *)
Lemma hoursToTime_out_of_range (val : R) (shift : value) (st : bool) (sh : R) :
  number shift = inr sh ->
  (floor (val + sh / 3600) + (if st then 1 else 0) < 0
   \/ 24 <= floor (val + sh / 3600) + (if st then 1 else 0))%Z ->
  __hoursToTime val shift st = inl TimeRangeError.
Proof.
  intros Hsh Hh. rewrite (hoursToTime_numeric _ _ _ _ Hsh). cbv zeta.
  rewrite datetime_time_hour by apply floor_sixtieth.
  destruct (in_range _ 0 24) eqn:Hr; [| reflexivity].
  apply in_range_spec in Hr. lia.
Qed.


(** Half past twelve with summer time: 13:30:00. *)
Example hoursToTime_12_30 :
  __hoursToTime 12.5 (VInt 0) true = inr (mk_time 13 30 0).
Proof.
  rewrite (hoursToTime_numeric 12.5 (VInt 0) true 0 eq_refl). cbv zeta.
  assert (Hh : floor (12.5 + 0 / 3600) = 12%Z)
    by (apply Zfloor_eq; simpl; lra).
  rewrite Hh.
  assert (Hm : floor ((12.5 + 0 / 3600 - 12) * 60) = 30%Z)
    by (apply Zfloor_eq; simpl; lra).
  rewrite Hm.
  assert (Hs : floor (((12.5 + 0 / 3600 - 12) * 60 - 30) * 60) = 0%Z)
    by (apply Zfloor_eq; simpl; lra).
  rewrite Hs. reflexivity.
Qed.

Lemma floor_24_5 : floor (24.5 + 0 / 3600) = 24%Z.
Proof. apply Zfloor_eq. simpl. lra. Qed.

Lemma floor_minus_half : floor (-0.5 + 0 / 3600) = (-1)%Z.
Proof. apply Zfloor_eq. simpl. lra. Qed.


End Conversion.

(** ** The accessors and the shift argument *)

Section Accessors.

Context {Date : Type}.
Variable gregorianToJulianDay : Date -> R.
Variable getHijri_month : Date -> Z -> Z.

Lemma bind_returns {A B} (m : result A) (k : A -> result B) (b : B) :
  (x ← m; k x) = inr b -> exists a, m = inr a /\ k a = inr b.
Proof. destruct m as [e | a]; cbn; [discriminate | eauto]. Qed.

(** An accessor is the conversion of its decimal-hour value: with a shift
    that is no number it raises, whether the value was computed or not. *)
Lemma convert_non_numeric (val_t : result R) (shift : value) (st : bool) :
  numeric shift = false ->
  (val ← val_t; __hoursToTime val shift st) =
    match val_t with
    | inl e => inl e
    | inr _ => inl ShiftException
    end.
Proof.
  intros Hshift. destruct val_t as [e | val]; cbn; [reflexivity |].
  apply hoursToTime_non_numeric, Hshift.
Qed.

Lemma convert_non_numeric_raises (val_t : result R) (shift : value) (st : bool) :
  numeric shift = false ->
  raises (val ← val_t; __hoursToTime val shift st).
Proof.
  intros Hshift. rewrite convert_non_numeric by assumption.
  destruct val_t; eexists; reflexivity.
Qed.

(** Computing the value an accessor converts can fail in a division or in
    a square root, and in no other way: the shift has no part in it. *)
Ltac arithmetic :=
  unfold math_sqrt, truediv;
  repeat first
    [ progress run
    | match goal with
      | |- context [Rlt_dec ?a ?b] => destruct (Rlt_dec a b)
      | |- context [Req_dec_T ?a ?b] => destruct (Req_dec_T a b)
      end ];
  try discriminate;
  intros [= <-]; auto.

Lemma sunDeclination_arithmetic (self : Prayer Date) (e : exn) :
  __sunDeclination gregorianToJulianDay self = inl e ->
  e = ZeroDivisionError \/ e = MathDomainError.
Proof. unfold __sunDeclination. cbv zeta. arithmetic. Qed.

Lemma prayerTime_arithmetic (self : Prayer Date) (zenith : R) (e : exn) :
  __prayerTime gregorianToJulianDay self zenith = inl e ->
  e = ZeroDivisionError \/ e = MathDomainError.
Proof.
  unfold __prayerTime.
  destruct (__sunDeclination gregorianToJulianDay self) as [e0 | delta] eqn:Hd; run.
  - intros [= <-]. exact (sunDeclination_arithmetic _ _ Hd).
  - arithmetic.
Qed.

Lemma asrZenith_arithmetic (self : Prayer Date) (e : exn) :
  __asrZenith gregorianToJulianDay self = inl e ->
  e = ZeroDivisionError \/ e = MathDomainError.
Proof.
  unfold __asrZenith.
  destruct (__sunDeclination gregorianToJulianDay self) as [e0 | delta] eqn:Hd; run.
  - intros [= <-]. exact (sunDeclination_arithmetic _ _ Hd).
  - cbv zeta. arithmetic.
Qed.

Lemma values_arithmetic (self : Prayer Date) (e : exn) :
  fajr_t gregorianToJulianDay self = inl e
  \/ sherook_t gregorianToJulianDay self = inl e
  \/ dohr_t gregorianToJulianDay self = inl e
  \/ asr_t gregorianToJulianDay self = inl e
  \/ maghreb_t gregorianToJulianDay self = inl e
  \/ ishaa_t gregorianToJulianDay getHijri_month self = inl e ->
  e = ZeroDivisionError \/ e = MathDomainError.
Proof.
  unfold fajr_t, sherook_t, dohr_t, asr_t, maghreb_t, ishaa_t.
  intros [H | [H | [H | [H | [H | H]]]]].
  - destruct (__prayerTime _ _ _) as [e0 | t] eqn:Ht; cbn in H; [| discriminate].
    injection H as <-. exact (prayerTime_arithmetic _ _ _ Ht).
  - destruct (__prayerTime _ _ _) as [e0 | t] eqn:Ht; cbn in H; [| discriminate].
    injection H as <-. exact (prayerTime_arithmetic _ _ _ Ht).
  - discriminate.
  - destruct (__asrZenith _ _) as [e0 | z] eqn:Hz; cbn in H.
    + injection H as <-. exact (asrZenith_arithmetic _ _ Hz).
    + destruct (__prayerTime _ _ _) as [e0 | t] eqn:Ht; cbn in H; [| discriminate].
      injection H as <-. exact (prayerTime_arithmetic _ _ _ Ht).
  - destruct (__prayerTime _ _ _) as [e0 | t] eqn:Ht; cbn in H; [| discriminate].
    injection H as <-. exact (prayerTime_arithmetic _ _ _ Ht).
  - destruct (ishaaZenith (conf self)) as [zenith |].
    + destruct (__prayerTime _ _ _) as [e0 | t] eqn:Ht; cbn in H; [| discriminate].
      injection H as <-. exact (prayerTime_arithmetic _ _ _ Ht).
    + destruct (_ =? 9)%Z;
        (destruct (__prayerTime _ _ _) as [e0 | t] eqn:Ht; cbn in H; [| discriminate];
         injection H as <-; exact (prayerTime_arithmetic _ _ _ Ht)).
Qed.

(** With a numeric shift the conversion of a value never raises the shift
    exception: it ends in [datetime.time]. *)
Lemma convert_numeric (val_t : result R) (shift : value) (st : bool) (sh : R) :
  number shift = inr sh ->
  (val ← val_t; __hoursToTime val shift st) =
    (val ← val_t;
     let hours := val + sh / 3600 in
     let minutes := (hours - IZR (floor hours)) * 60 in
     let seconds := (minutes - IZR (floor minutes)) * 60 in
     datetime_time (floor hours + (if st then 1 else 0))
                   (floor minutes) (floor seconds)).
Proof.
  intros Hsh. destruct val_t as [e | val]; cbn; [reflexivity |].
  apply (hoursToTime_numeric val shift st sh Hsh).
Qed.

Lemma convert_numeric_accepts (val_t : result R) (shift : value) (st : bool) :
  numeric shift = true ->
  (forall e, val_t = inl e -> e = ZeroDivisionError \/ e = MathDomainError) ->
  (val ← val_t; __hoursToTime val shift st) <> inl ShiftException.
Proof.
  intros Hshift Hval. apply numeric_number in Hshift as [sh Hsh].
  rewrite (convert_numeric val_t shift st sh Hsh).
  destruct val_t as [e | val]; cbn.
  - destruct (Hval e eq_refl) as [-> | ->]; discriminate.
  - unfold datetime_time.
    match goal with |- context [if ?b then _ else _] => destruct b end;
      discriminate.
Qed.


End Accessors.

(** ** Arithmetic of the hour angle *)

Section Trigonometry.

Lemma four_atan_1 : 4 * atan 1 = PI.
Proof. rewrite atan_1. lra. Qed.

Lemma neg_sq (x : R) : - x * x + 1 = 1 - x².
Proof. unfold Rsqr. ring. Qed.

Lemma sq_lt_1 (x : R) : 0 < - x * x + 1 <-> -1 < x < 1.
Proof. split; intros H; nra. Qed.

(** The [atan]/[sqrt] expressions of the module are the arcsine and the
    arccosine. *)
Lemma atan_as_asin (x : R) :
  -1 < x < 1 -> atan (x / sqrt (- x * x + 1)) = asin x.
Proof. intros Hx. rewrite neg_sq. symmetry. apply asin_atan, Hx. Qed.

Lemma atan_as_acos (s : R) :
  -1 < s < 1 -> atan (- s / sqrt (- s * s + 1)) + PI / 2 = acos s.
Proof.
  intros Hs. rewrite acos_asin by lra. rewrite <- atan_as_asin by exact Hs.
  rewrite Rdiv_opp_l, atan_opp. lra.
Qed.

Lemma acos_decreasing (s1 s2 : R) :
  -1 <= s1 -> s2 <= 1 -> s1 < s2 -> acos s2 < acos s1.
Proof.
  intros H1 H2 Hlt.
  destruct (Rlt_le_dec (acos s2) (acos s1)) as [Hok | Hbad]; [exact Hok |].
  pose proof (acos_bound s1) as B1. pose proof (acos_bound s2) as B2.
  apply cos_decr_1 in Hbad; try lra.
  rewrite !cos_acos in Hbad by lra. lra.
Qed.

Lemma dcos_decreasing (z1 z2 : R) :
  0 <= z1 -> z2 <= 180 -> z1 < z2 -> dcos z2 < dcos z1.
Proof.
  intros H1 H2 Hlt. unfold dcos.
  pose proof PI_RGT_0 as Hpi.
  apply cos_decreasing_1; nra.
Qed.

Lemma dcos_neg (z : R) : dcos (- z) = dcos z.
Proof.
  unfold dcos. replace (- z * PI / 180) with (- (z * PI / 180)) by lra.
  apply cos_neg.
Qed.

Lemma dcos_pos (z : R) : -90 < z < 90 -> 0 < dcos z.
Proof.
  intros Hz. unfold dcos. pose proof PI_RGT_0 as Hpi.
  apply cos_gt_0; nra.
Qed.

Lemma dcos_obtuse (z : R) : 90 < z < 270 -> dcos z < 0.
Proof.
  intros Hz. unfold dcos. pose proof PI_RGT_0 as Hpi.
  apply cos_lt_0; nra.
Qed.

Lemma dsin_bound (z : R) : -1 <= dsin z <= 1.
Proof. apply SIN_bound. Qed.

Lemma dcos_0 : dcos 0 = 1.
Proof. unfold dcos. replace (0 * PI / 180) with 0 by lra. apply cos_0. Qed.

Lemma dsin_0 : dsin 0 = 0.
Proof. unfold dsin. replace (0 * PI / 180) with 0 by lra. apply sin_0. Qed.

Lemma dcos_90 : dcos 90 = 0.
Proof. unfold dcos. replace (90 * PI / 180) with (PI / 2) by lra. apply cos_PI2. Qed.

(** The radian measure of an angle the module gives in degrees. *)
Lemma degrees_4atan1 (r : R) : 180 / (4 * atan 1) * r * PI / 180 = r.
Proof. rewrite four_atan_1. pose proof PI_RGT_0. field. lra. Qed.

Lemma degrees_pi (r : R) : 180 / PI * r * PI / 180 = r.
Proof. pose proof PI_RGT_0. field. lra. Qed.

Lemma math_sqrt_inr (x : R) : 0 <= x -> math_sqrt x = inr (sqrt x).
Proof. intros Hx. unfold math_sqrt. destruct (Rlt_dec x 0); [lra | reflexivity]. Qed.

Lemma math_sqrt_inv (x r : R) : math_sqrt x = inr r -> 0 <= x /\ r = sqrt x.
Proof.
  unfold math_sqrt. destruct (Rlt_dec x 0); [discriminate |].
  intros [= <-]. split; [lra | reflexivity].
Qed.

Lemma truediv_inr (x y : R) : y <> 0 -> truediv x y = inr (x / y).
Proof. intros Hy. unfold truediv. destruct (Req_dec_T y 0); [contradiction | reflexivity]. Qed.

Lemma truediv_zero (x : R) : truediv x 0 = inl ZeroDivisionError.
Proof. unfold truediv. destruct (Req_dec_T 0 0); [reflexivity | contradiction]. Qed.

Lemma truediv_inv (x y q : R) : truediv x y = inr q -> y <> 0 /\ q = x / y.
Proof.
  unfold truediv. destruct (Req_dec_T y 0); [discriminate |].
  intros [= <-]. split; [assumption | reflexivity].
Qed.

End Trigonometry.

(** ** Sun declination and hour angle *)

Section HourAngle.

Context {Date : Type}.
Variable gregorianToJulianDay : Date -> R.

Lemma sunDeclination_inr (self : Prayer Date) :
  let x := sin_declination (gregorianToJulianDay (date self)) in
  -1 < x < 1 ->
  __sunDeclination gregorianToJulianDay self = inr (180 / (4 * atan 1) * asin x).
Proof.
  intros x Hx. unfold __sunDeclination. cbv zeta.
  fold (sin_declination (gregorianToJulianDay (date self))). fold x.
  pose proof (proj2 (sq_lt_1 x) Hx) as Hpos.
  rewrite math_sqrt_inr by lra. run.
  rewrite truediv_inr by (pose proof (sqrt_lt_R0 _ Hpos); lra).
  run. rewrite atan_as_asin by exact Hx.
  reflexivity.
Qed.

Lemma sunDeclination_inv (self : Prayer Date) (delta : R) :
  __sunDeclination gregorianToJulianDay self = inr delta ->
  let x := sin_declination (gregorianToJulianDay (date self)) in
  -1 < x < 1 /\ delta = 180 / (4 * atan 1) * asin x.
Proof.
  intros Hd x. unfold __sunDeclination in Hd. cbv zeta in Hd.
  fold (sin_declination (gregorianToJulianDay (date self))) in Hd. fold x in Hd.
  apply bind_returns in Hd as [rt [Hrt Hd]].
  apply bind_returns in Hd as [q [Hq Hd]].
  apply math_sqrt_inv in Hrt as [Hpos ->].
  apply truediv_inv in Hq as [Hnz ->].
  assert (Hx : -1 < x < 1).
  { apply sq_lt_1. destruct Hpos as [Hpos | Hzero]; [exact Hpos |].
    rewrite <- Hzero, sqrt_0 in Hnz. contradiction. }
  split; [exact Hx |].
  injection Hd as <-. rewrite atan_as_asin by exact Hx. reflexivity.
Qed.

(** Sine and cosine of the declination the module computes. *)
Lemma declination_sin_cos (x : R) :
  -1 < x < 1 ->
  let delta := 180 / (4 * atan 1) * asin x in
  dsin delta = x /\ dcos delta = sqrt (1 - x²) /\ 0 < dcos delta.
Proof.
  intros Hx delta. unfold dsin, dcos, delta.
  rewrite degrees_4atan1.
  rewrite sin_asin, cos_asin by lra.
  repeat split. apply sqrt_lt_R0. unfold Rsqr. nra.
Qed.

Lemma prayerTime_inr (self : Prayer Date) (zenith delta : R) :
  __sunDeclination gregorianToJulianDay self = inr delta ->
  dcos (latitude (conf self)) * dcos delta <> 0 ->
  -1 < cos_hour_angle (latitude (conf self)) delta zenith < 1 ->
  __prayerTime gregorianToJulianDay self zenith =
    inr (hour_angle (cos_hour_angle (latitude (conf self)) delta zenith)).
Proof.
  intros Hd Hden Hs. unfold __prayerTime. rewrite Hd.
  run.
  rewrite truediv_inr by exact Hden.
  run.
  fold (cos_hour_angle (latitude (conf self)) delta zenith).
  set (s := cos_hour_angle (latitude (conf self)) delta zenith) in *.
  pose proof (proj2 (sq_lt_1 s) Hs) as Hpos.
  rewrite math_sqrt_inr by lra. run.
  rewrite truediv_inr by (pose proof (sqrt_lt_R0 _ Hpos); lra).
  run. rewrite atan_as_acos by exact Hs.
  reflexivity.
Qed.

Lemma prayerTime_inv (self : Prayer Date) (zenith t : R) :
  __prayerTime gregorianToJulianDay self zenith = inr t ->
  exists delta,
    __sunDeclination gregorianToJulianDay self = inr delta
    /\ dcos (latitude (conf self)) * dcos delta <> 0
    /\ -1 < cos_hour_angle (latitude (conf self)) delta zenith < 1
    /\ t = hour_angle (cos_hour_angle (latitude (conf self)) delta zenith).
Proof.
  intros Ht. unfold __prayerTime in Ht.
  apply bind_returns in Ht as [delta [Hd Ht]].
  apply bind_returns in Ht as [s [Hs Ht]].
  apply bind_returns in Ht as [rt [Hrt Ht]].
  apply bind_returns in Ht as [q [Hq Ht]].
  apply truediv_inv in Hs as [Hden ->].
  fold (cos_hour_angle (latitude (conf self)) delta zenith) in *.
  set (s := cos_hour_angle (latitude (conf self)) delta zenith) in *.
  apply math_sqrt_inv in Hrt as [Hpos ->].
  apply truediv_inv in Hq as [Hnz ->].
  assert (Hrange : -1 < s < 1).
  { apply sq_lt_1. destruct Hpos as [Hpos | Hzero]; [exact Hpos |].
    rewrite <- Hzero, sqrt_0 in Hnz. contradiction. }
  exists delta. repeat split; try assumption; try apply Hrange.
  injection Ht as <-. rewrite atan_as_acos by exact Hrange. reflexivity.
Qed.

(** The hour angle lies strictly between 0 and 12 hours, and shrinks as
    its cosine grows. *)
Lemma hour_angle_bound (s : R) : -1 < s < 1 -> 0 < hour_angle s < 12.
Proof.
  intros Hs. unfold hour_angle.
  pose proof (acos_bound_lt s Hs) as [Hlo Hhi]. pose proof PI_RGT_0 as Hpi.
  replace (180 / PI * acos s / 15) with (12 * (acos s / PI)) by (field; lra).
  assert (0 < acos s / PI) by (apply Rdiv_lt_0_compat; lra).
  assert (acos s / PI < 1).
  { apply (Rmult_lt_reg_r PI); [lra |]. unfold Rdiv.
    rewrite Rmult_assoc, Rinv_l by lra. lra. }
  lra.
Qed.

Lemma hour_angle_decreasing (s1 s2 : R) :
  -1 <= s1 -> s2 <= 1 -> s1 < s2 -> hour_angle s2 < hour_angle s1.
Proof.
  intros H1 H2 Hlt. unfold hour_angle.
  pose proof (acos_decreasing s1 s2 H1 H2 Hlt) as Hacos.
  pose proof PI_RGT_0 as Hpi.
  replace (180 / PI * acos s2 / 15) with (acos s2 * (12 / PI)) by (field; lra).
  replace (180 / PI * acos s1 / 15) with (acos s1 * (12 / PI)) by (field; lra).
  apply Rmult_lt_compat_r; [| exact Hacos].
  apply Rdiv_lt_0_compat; lra.
Qed.

Lemma prayerTime_bound (self : Prayer Date) (zenith t : R) :
  __prayerTime gregorianToJulianDay self zenith = inr t -> 0 < t < 12.
Proof.
  intros Ht. apply prayerTime_inv in Ht as [delta [_ [_ [Hs ->]]]].
  apply hour_angle_bound, Hs.
Qed.

End HourAngle.

(** ** The Asr zenith *)

Section AsrZenith.

Context {Date : Type}.
Variable gregorianToJulianDay : Date -> R.

Lemma asrZenith_inr (self : Prayer Date) (delta : R) :
  __sunDeclination gregorianToJulianDay self = inr delta ->
  let x := sin_noon_altitude (latitude (conf self)) delta in
  -1 < x < 1 -> x <> 0 ->
  let a := atan (x / sqrt (1 - x²)) in
  __asrZenith gregorianToJulianDay self =
    inr (90 - 180 / PI * (atan (IZR (asrMadhab (conf self)) + 1 / tan a)
                          + 2 * atan 1)).
Proof.
  intros Hd x Hx Hnz a. unfold __asrZenith. rewrite Hd.
  run.
  fold (sin_noon_altitude (latitude (conf self)) delta). fold x.
  pose proof (proj2 (sq_lt_1 x) Hx) as Hpos.
  pose proof (sqrt_lt_R0 _ Hpos) as Hrt.
  rewrite math_sqrt_inr by lra. run.
  rewrite truediv_inr by lra. run.
  rewrite truediv_inr.
  - run. unfold a. rewrite <- neg_sq. reflexivity.
  - rewrite tan_atan. intros Hq.
    apply (Rmult_eq_compat_r (sqrt (- x * x + 1))) in Hq.
    unfold Rdiv in Hq. rewrite Rmult_assoc, Rinv_l, Rmult_1_r, Rmult_0_l in Hq by lra.
    contradiction.
Qed.

Lemma asrZenith_inv (self : Prayer Date) (z : R) :
  __asrZenith gregorianToJulianDay self = inr z ->
  exists delta,
    __sunDeclination gregorianToJulianDay self = inr delta
    /\ let x := sin_noon_altitude (latitude (conf self)) delta in
       -1 < x < 1 /\ x <> 0
       /\ z = 90 - 180 / PI
                   * (atan (IZR (asrMadhab (conf self))
                            + 1 / tan (atan (x / sqrt (1 - x²))))
                      + 2 * atan 1).
Proof.
  intros Hz. unfold __asrZenith in Hz.
  apply bind_returns in Hz as [delta [Hd Hz]].
  change (dsin (latitude (conf self)) * dsin delta
          + dcos (latitude (conf self)) * dcos delta)
    with (sin_noon_altitude (latitude (conf self)) delta) in Hz.
  set (x := sin_noon_altitude (latitude (conf self)) delta) in *.
  apply bind_returns in Hz as [rt [Hrt Hz]].
  apply bind_returns in Hz as [q [Hq Hz]].
  apply bind_returns in Hz as [inv [Hinv Hz]].
  apply math_sqrt_inv in Hrt as [Hpos ->].
  apply truediv_inv in Hq as [Hnz ->].
  apply truediv_inv in Hinv as [Htan ->].
  assert (Hx : -1 < x < 1).
  { apply sq_lt_1. destruct Hpos as [Hpos | Hzero]; [exact Hpos |].
    rewrite <- Hzero, sqrt_0 in Hnz. contradiction. }
  exists delta. split; [exact Hd |]. cbv zeta. split; [exact Hx |]. split.
  - intros Hx0. change (x = 0) in Hx0.
    apply Htan. rewrite tan_atan, Hx0. unfold Rdiv. ring.
  - injection Hz as <-. rewrite <- neg_sq. reflexivity.
Qed.

(** The value is the negated angle [atan (madhab + 1 / tan a)], in
    degrees; its cosine is positive. *)
Lemma asr_angle_negated (X : R) :
  90 - 180 / PI * (atan X + 2 * atan 1) = - (180 / PI * atan X).
Proof.
  rewrite atan_1. pose proof PI_RGT_0. field. lra.
Qed.

Lemma asrZenith_dcos_pos (self : Prayer Date) (z : R) :
  __asrZenith gregorianToJulianDay self = inr z -> 0 < dcos z.
Proof.
  intros Hz. apply asrZenith_inv in Hz as [delta [_ [_ [_ ->]]]].
  rewrite asr_angle_negated, dcos_neg. unfold dcos.
  rewrite degrees_pi.
  match goal with |- 0 < cos (atan ?X) => pose proof (atan_bound X) as HB end.
  apply cos_gt_0; lra.
Qed.

(** C5, as the code has it: where the declination is computed and the
    noon altitude sine [x] lies strictly between -1 and 1 and is not 0,
    the Asr zenith returned is 90 - (atan(madhab + 1/tan(a)) + 2 atan(1))
    in degrees, with a = atan(x / sqrt(1 - x²)); that is the negated angle
    -atan(madhab + 1/tan(a)) in degrees, 90 below the value of the claim. *)
Theorem asrZenith_value (self : Prayer Date) (delta : R) :
  __sunDeclination gregorianToJulianDay self = inr delta ->
  let x := dsin (latitude (conf self)) * dsin delta
           + dcos (latitude (conf self)) * dcos delta in
  -1 < x < 1 -> x <> 0 ->
  let a := atan (x / sqrt (1 - x²)) in
  let madhabFactor := IZR (asrMadhab (conf self)) in
  __asrZenith gregorianToJulianDay self =
    inr (90 - 180 / PI * (atan (madhabFactor + 1 / tan a) + 2 * atan 1))
  /\ 90 - 180 / PI * (atan (madhabFactor + 1 / tan a) + 2 * atan 1)
     = - (180 / PI * atan (madhabFactor + 1 / tan a))
  /\ 90 - 180 / PI * (atan (madhabFactor + 1 / tan a) + 2 * atan 1)
     = (90 - 180 / PI * atan (madhabFactor + 1 / tan a)) - 90.
Proof.
  intros Hd x Hx Hnz a madhabFactor.
  split; [| split].
  - apply (asrZenith_inr self delta Hd Hx Hnz).
  - apply asr_angle_negated.
  - rewrite asr_angle_negated. lra.
Qed.

(** C6, as the code has it: at one latitude and date, when the Shafii
    configuration yields an Asr zenith so does the Hanafi one, and the
    Hanafi value is strictly below the Shafii value (both are negated
    angles; the Hanafi angle itself is the larger one). *)
Theorem asrZenith_hanafi_below_shafii (shafii hanafi : Prayer Date) (z1 : R) :
  latitude (conf shafii) = latitude (conf hanafi) ->
  date shafii = date hanafi ->
  asrMadhab (conf shafii) = 1%Z ->
  asrMadhab (conf hanafi) = 2%Z ->
  __asrZenith gregorianToJulianDay shafii = inr z1 ->
  exists z2, __asrZenith gregorianToJulianDay hanafi = inr z2
             /\ z2 < z1 /\ - z1 < - z2.
Proof.
  intros Hlat Hdate Hs Hh Hz1.
  apply asrZenith_inv in Hz1 as [delta [Hd [Hx [Hnz ->]]]].
  assert (Hd' : __sunDeclination gregorianToJulianDay hanafi = inr delta).
  { unfold __sunDeclination in *. rewrite <- Hdate. exact Hd. }
  rewrite Hlat in Hx, Hnz |- *.
  eexists. split.
  - apply (asrZenith_inr hanafi delta Hd' Hx Hnz).
  - rewrite Hs, Hh, !asr_angle_negated.
    set (c := 1 / tan _).
    pose proof (atan_increasing (1 + c) (2 + c) ltac:(lra)) as Hatan.
    pose proof PI_RGT_0 as Hpi.
    assert (Hk : 0 < 180 / PI) by (apply Rdiv_lt_0_compat; lra).
    split; nra.
Qed.

End AsrZenith.

(** ** The six decimal-hour values *)

Lemma PrayerConf_init_fields lon lat tz zenith_ref asr_madhab st c :
  PrayerConf_init lon lat tz zenith_ref asr_madhab st = inr c ->
  latitude c = lat
  /\ sherookZenith c = 90.83333 /\ maghrebZenith c = 90.83333
  /\ longitudeDifference c = (tz * 15 - lon) / 15
  /\ summerTime c = st
  /\ (zenith_ref = 4%Z -> fajrZenith c = 108.5 /\ ishaaZenith c = None)
  /\ (zenith_ref <> 4%Z ->
      90.83333 < fajrZenith c <= 180
      /\ exists z, ishaaZenith c = Some z /\ 90.83333 < z <= 180).
Proof.
  unfold PrayerConf_init.
  change (zeniths !! 3%Z) with (Some (109.5, Some 107.5)).
  run.
  destruct (decide (1 <= zenith_ref <= 5)%Z) as [Hin | Hout].
  - assert (Hcases : zenith_ref = 1%Z \/ zenith_ref = 2%Z \/ zenith_ref = 3%Z
                     \/ zenith_ref = 4%Z \/ zenith_ref = 5%Z) by lia.
    destruct Hcases as [-> | [-> | [-> | [-> | ->]]]];
      [ change (zeniths !! 1%Z) with (Some (108.0, Some 108.0))
      | change (zeniths !! 2%Z) with (Some (108.0, Some 107.0))
      | change (zeniths !! 3%Z) with (Some (109.5, Some 107.5))
      | change (zeniths !! 4%Z) with (Some (108.5, @None R))
      | change (zeniths !! 5%Z) with (Some (105.0, Some 105.0)) ];
      cbn [default]; intros [= <-]; cbn;
      repeat split; try reflexivity; try lra; try lia; try discriminate;
      try (intros; eexists; split; [reflexivity | lra]);
      try (intros Hne; contradiction).
  - rewrite zeniths_lookup_unknown by lia. cbn [default]. intros [= <-]. cbn.
    repeat split; try reflexivity; try lra; try lia.
    eexists; split; [reflexivity | lra].
Qed.

Section Orchestration.

Context {Date : Type}.
Variable gregorianToJulianDay : Date -> R.
Variable getHijri_month : Date -> Z -> Z.

Lemma prayerTime_monotone (self : Prayer Date) (z1 z2 t1 t2 : R) :
  0 < dcos (latitude (conf self)) ->
  __prayerTime gregorianToJulianDay self z1 = inr t1 ->
  __prayerTime gregorianToJulianDay self z2 = inr t2 ->
  dcos z1 < dcos z2 ->
  t2 < t1.
Proof.
  intros Hlat H1 H2 Hcos.
  apply prayerTime_inv in H1 as [d1 [Hd1 [_ [Hs1 ->]]]].
  apply prayerTime_inv in H2 as [d2 [Hd2 [_ [Hs2 ->]]]].
  assert (d2 = d1) as -> by congruence.
  apply sunDeclination_inv in Hd1 as [Hx ->].
  pose proof (declination_sin_cos _ Hx) as [_ [_ Hpos]]. cbv zeta in Hpos.
  apply hour_angle_decreasing; try lra.
  unfold cos_hour_angle in *.
  apply Rmult_lt_compat_r; [| lra].
  apply Rinv_0_lt_compat. nra.
Qed.

Lemma value_minus_inv (self : Prayer Date) (zenith v : R) :
  (t ← __prayerTime gregorianToJulianDay self zenith;
   ret (__dohrTime gregorianToJulianDay self - t)) = inr v ->
  exists t, __prayerTime gregorianToJulianDay self zenith = inr t
            /\ v = __dohrTime gregorianToJulianDay self - t.
Proof.
  intros Hv. apply bind_returns in Hv as [t [Ht Hv]].
  exists t. split; [exact Ht |]. injection Hv as <-. reflexivity.
Qed.

Lemma value_plus_inv (self : Prayer Date) (zenith v : R) :
  (t ← __prayerTime gregorianToJulianDay self zenith;
   ret (__dohrTime gregorianToJulianDay self + t)) = inr v ->
  exists t, __prayerTime gregorianToJulianDay self zenith = inr t
            /\ v = __dohrTime gregorianToJulianDay self + t.
Proof.
  intros Hv. apply bind_returns in Hv as [t [Ht Hv]].
  exists t. split; [exact Ht |]. injection Hv as <-. reflexivity.
Qed.

(** With an absent Ishaa zenith the value handed to the converter is the
    Dohr value; the Maghreb hour angle is evaluated on the way and only
    its exception, if any, is kept. *)
Lemma ishaa_t_absent (self : Prayer Date) :
  ishaaZenith (conf self) = None ->
  ishaa_t gregorianToJulianDay getHijri_month self =
    match __prayerTime gregorianToJulianDay self (maghrebZenith (conf self)) with
    | inl e => inl e
    | inr _ => inr (__dohrTime gregorianToJulianDay self)
    end.
Proof.
  intros Hnone. unfold ishaa_t. rewrite Hnone.
  destruct (getHijri_month (date self) (correction_val self) =? 9)%Z;
    destruct (__prayerTime gregorianToJulianDay self (maghrebZenith (conf self)));
    reflexivity.
Qed.

Lemma ishaa_t_present (self : Prayer Date) (zenith : R) :
  ishaaZenith (conf self) = Some zenith ->
  ishaa_t gregorianToJulianDay getHijri_month self =
    (t ← __prayerTime gregorianToJulianDay self zenith;
     ret (__dohrTime gregorianToJulianDay self + t)).
Proof. intros Hsome. unfold ishaa_t. rewrite Hsome. reflexivity. Qed.

(** C1 on the code: with an absent Ishaa zenith (Umm al-Qura) and a Maghreb
    value [m], the Ishaa value is the Dohr value, in Ramadan and outside
    it; Ishaa minus Maghreb is the negated Maghreb hour angle, a number
    strictly between -12 and 0, and so neither 1.5 nor 2.0. *)
Theorem ishaa_minus_maghreb_umm_al_qura (self : Prayer Date) (m : R) :
  ishaaZenith (conf self) = None ->
  maghreb_t gregorianToJulianDay self = inr m ->
  exists i, ishaa_t gregorianToJulianDay getHijri_month self = inr i
    /\ i = __dohrTime gregorianToJulianDay self
    /\ -12 < i - m < 0
    /\ i - m <> 1.5 /\ i - m <> 2.0.
Proof.
  intros Hnone Hm. unfold maghreb_t in Hm.
  apply value_plus_inv in Hm as [t [Ht ->]].
  pose proof (prayerTime_bound _ _ _ _ Ht) as Hbound.
  exists (__dohrTime gregorianToJulianDay self).
  rewrite (ishaa_t_absent self Hnone), Ht.
  repeat split; try lra.
Qed.

(** C2, as the code has it: with an absent Ishaa zenith, the Ishaa
    accessor returns what the Dohr accessor returns for the same shift
    whenever the Maghreb hour angle evaluates; when that evaluation raises,
    the Ishaa accessor raises the same exception. *)
Theorem ishaaTime_umm_al_qura (self : Prayer Date) (shift : value) :
  ishaaZenith (conf self) = None ->
  (returns (__prayerTime gregorianToJulianDay self (maghrebZenith (conf self))) ->
     ishaa_t gregorianToJulianDay getHijri_month self
       = inr (__dohrTime gregorianToJulianDay self)
     /\ ishaaTime gregorianToJulianDay getHijri_month self shift
        = dohrTime gregorianToJulianDay self shift)
  /\ (forall e,
        __prayerTime gregorianToJulianDay self (maghrebZenith (conf self)) = inl e ->
        ishaaTime gregorianToJulianDay getHijri_month self shift = inl e).
Proof.
  intros Hnone. unfold ishaaTime, dohrTime, dohr_t.
  rewrite (ishaa_t_absent self Hnone). split.
  - intros [t ->]. split; reflexivity.
  - intros e ->. reflexivity.
Qed.

(** C4: the configuration built from the raw inputs gives the Dohr value
    12 + (timezone * 15 - longitude) / 15 + equation of time / 60, with the
    equation of time (c + r) * 4 from the mean anomaly [g], the correction
    [c] in [g], [2g], [3g], the ecliptic longitude [lamda] and the
    correction [r] in [2 lamda], [4 lamda], [6 lamda]; the value never
    fails. *)
Theorem dohr_solar_noon lon lat tz zenith_ref asr_madhab st
    (dat : Date) (correction : Z) :
  exists cfg, PrayerConf_init lon lat tz zenith_ref asr_madhab st = inr cfg
    /\ let self := mkPrayer cfg dat correction in
       let longitudeDifferenceHours := (tz * 15 - lon) / 15 in
       let n := gregorianToJulianDay dat - 2451544.5 in
       let g := 357.528 + 0.9856003 * n in
       let c := 1.9148 * dsin g + 0.02 * dsin (2 * g) + 0.0003 * dsin (3 * g) in
       let lamda := 280.47 + 0.9856003 * n + c in
       let r := -2.468 * dsin (2 * lamda) + 0.053 * dsin (4 * lamda)
                + 0.0014 * dsin (6 * lamda) in
       let equationOfTimeMinutes := (c + r) * 4 in
       __equationOfTime gregorianToJulianDay self = equationOfTimeMinutes
       /\ __dohrTime gregorianToJulianDay self
          = 12 + longitudeDifferenceHours + equationOfTimeMinutes / 60
       /\ dohr_t gregorianToJulianDay self
          = inr (12 + longitudeDifferenceHours + equationOfTimeMinutes / 60).
Proof.
  destruct (PrayerConf_init_returns lon lat tz zenith_ref asr_madhab st)
    as [cfg [Hcfg [_ [_ [Hld _]]]]].
  exists cfg. split; [exact Hcfg |]. cbv zeta.
  unfold dohr_t, __dohrTime, __equationOfTime. cbn [conf date].
  rewrite Hld. repeat split.
Qed.

End Orchestration.

(** ** Order of the six values *)

Section Ordering.

Context {Date : Type}.
Variable gregorianToJulianDay : Date -> R.
Variable getHijri_month : Date -> Z -> Z.

(** C3, as the code has it by design: for a configuration built with a
    latitude strictly between -90 and 90 and a zenith reference other than
    4 (so that Ishaa is computed from an angle), whenever the five hour
    angles evaluate, the decimal-hour values are in the order
    Fajr < Sherook < Dohr < Asr < Maghreb < Ishaa. *)
Theorem prayer_times_ordered lon lat tz zenith_ref asr_madhab st cfg
    (dat : Date) (correction : Z) (f s a m i : R) :
  PrayerConf_init lon lat tz zenith_ref asr_madhab st = inr cfg ->
  zenith_ref <> 4%Z ->
  -90 < lat < 90 ->
  let self := mkPrayer cfg dat correction in
  fajr_t gregorianToJulianDay self = inr f ->
  sherook_t gregorianToJulianDay self = inr s ->
  asr_t gregorianToJulianDay self = inr a ->
  maghreb_t gregorianToJulianDay self = inr m ->
  ishaa_t gregorianToJulianDay getHijri_month self = inr i ->
  exists d, dohr_t gregorianToJulianDay self = inr d
    /\ f < s /\ s < d /\ d < a /\ a < m /\ m < i.
Proof.
  intros Hcfg Hmethod Hlat self Hf Hs Ha Hm Hi.
  destruct (PrayerConf_init_fields _ _ _ _ _ _ _ Hcfg)
    as [Hlatc [Hsz [Hmz [_ [_ [_ Hangles]]]]]].
  destruct (Hangles Hmethod) as [Hfz [zi [Hzi Hzi_range]]].
  assert (Hcoslat : 0 < dcos (latitude (conf self))).
  { cbn [conf self]. rewrite Hlatc. apply dcos_pos, Hlat. }
  unfold fajr_t in Hf. apply value_minus_inv in Hf as [tf [Htf ->]].
  unfold sherook_t in Hs. apply value_minus_inv in Hs as [ts [Hts ->]].
  unfold maghreb_t in Hm. apply value_plus_inv in Hm as [tm [Htm ->]].
  rewrite (ishaa_t_present _ _ self zi Hzi) in Hi.
  apply value_plus_inv in Hi as [ti [Hti ->]].
  unfold asr_t in Ha. apply bind_returns in Ha as [za [Hza Ha]].
  apply value_plus_inv in Ha as [ta [Hta ->]].
  cbn [conf self] in Htf, Hts, Htm. rewrite Hsz in Hts. rewrite Hmz in Htm.
  exists (__dohrTime gregorianToJulianDay self). split; [reflexivity |].
  pose proof (prayerTime_bound _ _ _ _ Hts) as Bs.
  pose proof (prayerTime_bound _ _ _ _ Hta) as Ba.
  (* Fajr before sunrise: the Fajr zenith is the larger angle. *)
  assert (Hfs : ts < tf).
  { apply (prayerTime_monotone gregorianToJulianDay self
             (fajrZenith cfg) 90.83333 tf ts Hcoslat Htf Hts).
    apply dcos_decreasing; lra. }
  (* Asr before sunset: the cosine of the Asr zenith is positive. *)
  assert (Ham : ta < tm).
  { apply (prayerTime_monotone gregorianToJulianDay self
             90.83333 za tm ta Hcoslat Htm Hta).
    pose proof (asrZenith_dcos_pos _ _ _ Hza) as Hpos.
    pose proof (dcos_obtuse 90.83333 ltac:(lra)) as Hneg. lra. }
  (* Sunset before Ishaa: the Ishaa zenith is the larger angle. *)
  assert (Hmi : tm < ti).
  { apply (prayerTime_monotone gregorianToJulianDay self
             zi 90.83333 ti tm Hcoslat Hti Htm).
    apply dcos_decreasing; lra. }
  repeat split; lra.
Qed.

End Ordering.

(** ** The equator on 1 January 2000 *)

Section Equator2000.

Lemma dsin_23_44 : 0 < dsin 23.44 < 1.
Proof.
  pose proof PI_RGT_0 as Hpi. unfold dsin. split.
  - apply sin_gt_0; lra.
  - rewrite <- sin_PI2. apply sin_increasing_1; lra.
Qed.

Lemma sin_declination_2000 :
  sin_declination 2451544.5 =
    dsin 23.44 * dsin (280.466 + 1.915 * dsin 357.528 + 0.02 * dsin (2 * 357.528)).
Proof.
  unfold sin_declination. cbv zeta.
  replace (2451544.5 - 2451544.5) with 0 by lra.
  rewrite !Rmult_0_r, !Rplus_0_r, Rminus_0_r. reflexivity.
Qed.

(** In early January the sun stands south of the equator. *)
Lemma sin_declination_2000_range :
  - dsin 23.44 <= sin_declination 2451544.5 < 0.
Proof.
  rewrite sin_declination_2000.
  pose proof dsin_23_44 as He.
  pose proof (dsin_bound 357.528) as Hg.
  pose proof (dsin_bound (2 * 357.528)) as Hg2.
  set (lamda := 280.466 + 1.915 * dsin 357.528 + 0.02 * dsin (2 * 357.528)).
  assert (Hlamda : 278 < lamda < 283) by (unfold lamda; lra).
  pose proof (dsin_bound lamda) as Hl.
  assert (Hneg : dsin lamda < 0).
  { pose proof PI_RGT_0 as Hpi. unfold dsin. apply sin_lt_0; nra. }
  split; nra.
Qed.

Lemma dcos_23_44 : 0 < dcos 23.44 /\ (dcos 23.44)² = 1 - (dsin 23.44)².
Proof.
  split; [apply dcos_pos; lra |].
  unfold dsin, dcos. pose proof (sin2_cos2 (23.44 * PI / 180)). lra.
Qed.

Variable self : Prayer sample_date.
Hypothesis Hlat : latitude (conf self) = 0.
Hypothesis Hdate : date self = new_year_2000.

Let x0 : R := sin_declination 2451544.5.
Let delta0 : R := 180 / (4 * atan 1) * asin x0.

Lemma equator_sunDeclination :
  __sunDeclination sample_julian_day self = inr delta0.
Proof using Hdate.
  pose proof sin_declination_2000_range as Hx. pose proof dsin_23_44 as He.
  unfold delta0, x0.
  replace 2451544.5 with (sample_julian_day (date self)) at 1
    by (rewrite Hdate; reflexivity).
  apply sunDeclination_inr. rewrite Hdate. cbn [sample_julian_day new_year_2000].
  lra.
Qed.

Lemma equator_declination :
  dsin delta0 = x0 /\ dcos 23.44 <= dcos delta0 < 1.
Proof.
  pose proof sin_declination_2000_range as Hx. pose proof dsin_23_44 as He.
  pose proof dcos_23_44 as [Hc Hc2].
  fold x0 in Hx.
  assert (Hrange : -1 < x0 < 1) by lra.
  destruct (declination_sin_cos x0 Hrange) as [Hsin [Hcos Hpos]].
  fold delta0 in Hsin, Hcos, Hpos.
  split; [exact Hsin |]. rewrite Hcos. split.
  - rewrite <- (sqrt_Rsqr (dcos 23.44)) by lra.
    apply sqrt_le_1_alt. rewrite Hc2. unfold Rsqr. nra.
  - rewrite <- sqrt_1 at 2. apply sqrt_lt_1_alt. unfold Rsqr. nra.
Qed.

(** At the equator the hour-angle cosine is [dcos zenith / dcos delta0]:
    every zenith whose cosine is below that of 23.44 degrees in absolute
    value has an hour angle. *)
Lemma equator_prayerTime (zenith : R) :
  - dcos 23.44 < dcos zenith < dcos 23.44 ->
  __prayerTime sample_julian_day self zenith =
    inr (hour_angle (dcos zenith / dcos delta0)).
Proof using Hlat Hdate.
  intros Hz.
  pose proof equator_declination as [Hsin [Hlo Hhi]].
  pose proof dcos_23_44 as [Hc _].
  assert (Hs : cos_hour_angle (latitude (conf self)) delta0 zenith
               = dcos zenith / dcos delta0).
  { unfold cos_hour_angle. rewrite Hlat, dsin_0, dcos_0. field. lra. }
  rewrite <- Hs.
  apply prayerTime_inr.
  - apply equator_sunDeclination.
  - rewrite Hlat, dcos_0. lra.
  - rewrite Hs.
    assert (Hinv : 0 < / dcos delta0) by (apply Rinv_0_lt_compat; lra).
    assert (Hone : dcos delta0 * / dcos delta0 = 1) by (apply Rinv_r; lra).
    unfold Rdiv. split; nra.
Qed.

Lemma zenith_cosine_range (zenith : R) :
  23.44 < zenith < 156.56 -> - dcos 23.44 < dcos zenith < dcos 23.44.
Proof.
  intros Hz. split.
  - replace (- dcos 23.44) with (dcos 156.56).
    + apply dcos_decreasing; lra.
    + unfold dcos. rewrite <- cos_pi_minus. f_equal. lra.
  - apply dcos_decreasing; lra.
Qed.

End Equator2000.

Section EquatorAsr.

Lemma dcos_asr_angle (X : R) :
  dcos (90 - 180 / PI * (atan X + 2 * atan 1)) = cos (atan X).
Proof.
  rewrite asr_angle_negated, dcos_neg. unfold dcos. rewrite degrees_pi.
  reflexivity.
Qed.

Lemma cos_atan_above_1 (X : R) : 1 < X -> 0 < cos (atan X) < dcos 23.44.
Proof.
  intros HX. pose proof PI_RGT_0 as Hpi.
  pose proof (atan_increasing 1 X HX) as Hinc. rewrite atan_1 in Hinc.
  pose proof (atan_bound X) as [_ Hhi].
  split.
  - apply cos_gt_0; lra.
  - unfold dcos. apply cos_decreasing_1; lra.
Qed.

Variable self : Prayer sample_date.
Hypothesis Hlat : latitude (conf self) = 0.
Hypothesis Hdate : date self = new_year_2000.
Hypothesis Hmadhab : (1 <= asrMadhab (conf self))%Z.

Let delta0 : R := 180 / (4 * atan 1) * asin (sin_declination 2451544.5).

(** The Asr zenith at the equator: the noon altitude sine is
    [dcos delta0], strictly between 0 and 1. *)
Lemma equator_asrZenith :
  let x := sin_noon_altitude 0 delta0 in
  let a := atan (x / sqrt (1 - x²)) in
  let z := 90 - 180 / PI * (atan (IZR (asrMadhab (conf self)) + 1 / tan a)
                            + 2 * atan 1) in
  -1 < x < 1 /\ x <> 0
  /\ __asrZenith sample_julian_day self = inr z
  /\ 0 < dcos z < dcos 23.44.
Proof using Hlat Hdate Hmadhab.
  intros x a z.
  pose proof equator_declination as [_ [Hlo Hhi]]. fold delta0 in Hlo, Hhi.
  pose proof dcos_23_44 as [Hc _].
  assert (Hx : x = dcos delta0).
  { unfold x, sin_noon_altitude. rewrite dsin_0, dcos_0. ring. }
  assert (Hrange : -1 < x < 1) by lra.
  assert (Hnz : x <> 0) by lra.
  split; [exact Hrange |]. split; [exact Hnz |]. split.
  - pose proof (asrZenith_inr sample_julian_day self delta0
                  (equator_sunDeclination self Hdate)) as Hasr.
    rewrite Hlat in Hasr. apply (Hasr Hrange Hnz).
  - unfold z. rewrite dcos_asr_angle. apply cos_atan_above_1.
    assert (Hinv : 0 < 1 / tan a).
    { unfold a. rewrite tan_atan.
      assert (Hrt : 0 < sqrt (1 - x²)).
      { apply sqrt_lt_R0. unfold Rsqr. nra. }
      apply Rdiv_lt_0_compat; [lra |].
      apply Rdiv_lt_0_compat; lra. }
    apply IZR_le in Hmadhab. lra.
Qed.

Lemma equator_asr_t :
  exists z t, __asrZenith sample_julian_day self = inr z
    /\ __prayerTime sample_julian_day self z = inr t
    /\ asr_t sample_julian_day self
       = inr (__dohrTime sample_julian_day self + t).
Proof using Hlat Hdate Hmadhab.
  destruct equator_asrZenith as [_ [_ [Hz Hcos]]].
  pose proof dcos_23_44 as [Hc _].
  eexists. eexists. split; [exact Hz |]. split.
  - apply (equator_prayerTime self Hlat Hdate). lra.
  - unfold asr_t. rewrite Hz. run.
    rewrite (equator_prayerTime self Hlat Hdate) by lra. reflexivity.
Qed.

End EquatorAsr.

(** ** Solar noon is always a time of the day *)

Section SolarNoon.

Context {Date : Type}.
Variable gregorianToJulianDay : Date -> R.

Lemma equationOfTime_bound (self : Prayer Date) :
  -18 < __equationOfTime gregorianToJulianDay self < 18.
Proof.
  unfold __equationOfTime. cbv zeta.
  repeat match goal with
         | |- context [dsin ?t] =>
             let H := fresh "Hsin" in
             pose proof (dsin_bound t) as H;
             let s := fresh "s" in
             set (s := dsin t) in *; clearbody s
         end.
  lra.
Qed.

Lemma dohrTime_returns (self : Prayer Date) (shift : value) (sh : R) :
  number shift = inr sh ->
  -11 <= longitudeDifference (conf self) + sh / 3600 <= 10 ->
  returns (dohrTime gregorianToJulianDay self shift).
Proof.
  intros Hsh Hld. unfold dohrTime, dohr_t. run.
  pose proof (equationOfTime_bound self) as Heot.
  apply (hoursToTime_in_range _ _ _ sh Hsh).
  set (hours := __dohrTime gregorianToJulianDay self + sh / 3600).
  assert (Hhours : 0 < hours < 23).
  { unfold hours, __dohrTime. cbv zeta. lra. }
  pose proof (Zfloor_bound hours) as Hfl.
  assert (0 <= floor hours)%Z by (apply Zfloor_lub; simpl; lra).
  assert (floor hours < 23)%Z by (apply lt_IZR; unfold floor; lra).
  destruct (summerTime (conf self)); lia.
Qed.

End SolarNoon.

Lemma sample_configurations :
  PrayerConf_init 0 0 0 3 1 false = inr equator_egyptian
  /\ PrayerConf_init 0 0 0 3 2 false = inr equator_hanafi
  /\ PrayerConf_init 0 0 0 4 1 false = inr equator_umm_al_qura
  /\ PrayerConf_init 0 (-89.5) 0 3 1 false = inr antarctic_egyptian
  /\ PrayerConf_init 0 (-89.5) 0 4 1 false = inr antarctic_umm_al_qura.
Proof. repeat split. Qed.

(** At latitude -89.5 on 1 January 2000 the sun does not set: for a
    zenith of 90.5 degrees or more the hour-angle cosine is below -1 and
    the square root is refused. *)
Lemma antarctic_prayerTime (self : Prayer sample_date) (zenith : R) :
  latitude (conf self) = -89.5 ->
  date self = new_year_2000 ->
  90.5 <= zenith <= 180 ->
  __prayerTime sample_julian_day self zenith = inl MathDomainError.
Proof.
  intros Hlat Hdate Hz. unfold __prayerTime.
  rewrite (equator_sunDeclination self Hdate). run.
  pose proof equator_declination as [Hsin [Hlo Hhi]].
  pose proof dcos_23_44 as [Hc _].
  pose proof sin_declination_2000_range as Hx0.
  pose proof PI_RGT_0 as Hpi.
  set (delta0 := 180 / (4 * atan 1) * asin (sin_declination 2451544.5)) in *.
  rewrite Hlat, Hsin.
  assert (Hsinlat : dsin (-89.5) < 0).
  { unfold dsin. apply sin_lt_0_var; lra. }
  assert (Hcoslat : 0 < dcos (-89.5)) by (apply dcos_pos; lra).
  assert (Hzen : dcos zenith <= - dcos (-89.5)).
  { replace (dcos (-89.5)) with (dcos 89.5)
      by (rewrite <- dcos_neg; f_equal; lra).
    replace (- dcos 89.5) with (dcos 90.5)
      by (unfold dcos; rewrite <- cos_pi_minus; f_equal; lra).
    destruct (proj1 Hz) as [Hlt | <-]; [| lra].
    apply Rlt_le, dcos_decreasing; lra. }
  set (num := dcos zenith - dsin (-89.5) * sin_declination 2451544.5).
  set (den := dcos (-89.5) * dcos delta0).
  assert (Hden : 0 < den) by (unfold den; nra).
  assert (Hnum : num < - den) by (unfold num, den; nra).
  rewrite truediv_inr by lra. run.
  assert (Hs : num / den < -1).
  { assert (Hinv : 0 < / den) by (apply Rinv_0_lt_compat; lra).
    assert (Hone : den * / den = 1) by (apply Rinv_r; lra).
    unfold Rdiv. nra. }
  unfold math_sqrt.
  destruct (Rlt_dec (- (num / den) * (num / den) + 1) 0) as [_ | Hge];
    [reflexivity | exfalso; apply Hge; nra].
Qed.

(** ** The theorems at the sample inputs *)

(** The Umm al-Qura engine at the equator on 1 January 2000 (a day of
    Ramadan): Maghreb has a value, Ishaa has the Dohr value, and Ishaa
    minus Maghreb is negative. *)
Lemma ishaa_minus_maghreb_equator_2000 :
  exists m i,
    maghreb_t sample_julian_day (mkPrayer equator_umm_al_qura new_year_2000 0)
      = inr m
    /\ ishaa_t sample_julian_day sample_getHijri_month
         (mkPrayer equator_umm_al_qura new_year_2000 0) = inr i
    /\ i = __dohrTime sample_julian_day
             (mkPrayer equator_umm_al_qura new_year_2000 0)
    /\ -12 < i - m < 0 /\ i - m <> 1.5 /\ i - m <> 2.0.
Proof.
  pose (self := mkPrayer equator_umm_al_qura new_year_2000 0).
  assert (Hm : maghreb_t sample_julian_day self
               = inr (__dohrTime sample_julian_day self
                      + hour_angle (dcos 90.83333 / dcos
                          (180 / (4 * atan 1) * asin (sin_declination 2451544.5))))).
  { unfold maghreb_t.
    rewrite (equator_prayerTime self eq_refl eq_refl)
      by (apply zenith_cosine_range; cbn; lra).
    reflexivity. }
  destruct (ishaa_minus_maghreb_umm_al_qura sample_julian_day
              sample_getHijri_month self _ eq_refl Hm) as [i Hi].
  eexists. exists i. split; [exact Hm | exact Hi].
Defined.

(** The same engine: the Ishaa accessor returns what the Dohr accessor
    returns. *)
Lemma ishaaTime_equator_2000 :
  ishaaZenith equator_umm_al_qura = None
  /\ ishaa_t sample_julian_day sample_getHijri_month
       (mkPrayer equator_umm_al_qura new_year_2000 0)
     = inr (__dohrTime sample_julian_day
              (mkPrayer equator_umm_al_qura new_year_2000 0))
  /\ ishaaTime sample_julian_day sample_getHijri_month
       (mkPrayer equator_umm_al_qura new_year_2000 0) (VFloat 0)
     = dohrTime sample_julian_day
         (mkPrayer equator_umm_al_qura new_year_2000 0) (VFloat 0).
Proof.
  split; [reflexivity |].
  apply (ishaaTime_umm_al_qura sample_julian_day sample_getHijri_month
           (mkPrayer equator_umm_al_qura new_year_2000 0) (VFloat 0) eq_refl).
  eexists.
  apply (equator_prayerTime (mkPrayer equator_umm_al_qura new_year_2000 0)
           eq_refl eq_refl).
  apply zenith_cosine_range. cbn. lra.
Defined.

(** C2 as stated fails: for the Umm al-Qura engine at latitude -89.5 on
    1 January 2000 (the sun does not set) the Dohr accessor returns a time
    while the Ishaa accessor raises. *)
Lemma ishaaTime_antarctic_raises :
  ishaaTime sample_julian_day sample_getHijri_month
    (mkPrayer antarctic_umm_al_qura new_year_2000 0) (VFloat 0)
  = inl MathDomainError
  /\ returns (dohrTime sample_julian_day
                (mkPrayer antarctic_umm_al_qura new_year_2000 0) (VFloat 0))
  /\ ishaaTime sample_julian_day sample_getHijri_month
       (mkPrayer antarctic_umm_al_qura new_year_2000 0) (VFloat 0)
     <> dohrTime sample_julian_day
          (mkPrayer antarctic_umm_al_qura new_year_2000 0) (VFloat 0).
Proof.
  pose (self := mkPrayer antarctic_umm_al_qura new_year_2000 0).
  assert (Hishaa : ishaaTime sample_julian_day sample_getHijri_month self (VFloat 0)
                   = inl MathDomainError).
  { unfold ishaaTime.
    rewrite (ishaa_t_absent sample_julian_day sample_getHijri_month self eq_refl).
    rewrite antarctic_prayerTime by (try reflexivity; cbn; lra). reflexivity. }
  assert (Hdohr : returns (dohrTime sample_julian_day self (VFloat 0))).
  { apply (dohrTime_returns sample_julian_day self (VFloat 0) 0 eq_refl).
    cbn. lra. }
  split; [exact Hishaa |]. split; [exact Hdohr |].
  fold self. rewrite Hishaa. destruct Hdohr as [t ->]. discriminate.
Qed.

(** The Egyptian configuration at the equator on 1 January 2000: the six
    values exist and are in order. *)
Lemma prayer_times_ordered_equator_2000 :
  exists f s d a m i,
    fajr_t sample_julian_day (mkPrayer equator_egyptian new_year_2000 0) = inr f
    /\ sherook_t sample_julian_day (mkPrayer equator_egyptian new_year_2000 0) = inr s
    /\ dohr_t sample_julian_day (mkPrayer equator_egyptian new_year_2000 0) = inr d
    /\ asr_t sample_julian_day (mkPrayer equator_egyptian new_year_2000 0) = inr a
    /\ maghreb_t sample_julian_day (mkPrayer equator_egyptian new_year_2000 0) = inr m
    /\ ishaa_t sample_julian_day sample_getHijri_month
         (mkPrayer equator_egyptian new_year_2000 0) = inr i
    /\ f < s /\ s < d /\ d < a /\ a < m /\ m < i.
Proof.
  pose (self := mkPrayer equator_egyptian new_year_2000 0).
  assert (Hf : exists f, fajr_t sample_julian_day self = inr f).
  { unfold fajr_t.
    rewrite (equator_prayerTime self eq_refl eq_refl)
      by (apply zenith_cosine_range; cbn; lra).
    eexists. reflexivity. }
  assert (Hs : exists s, sherook_t sample_julian_day self = inr s).
  { unfold sherook_t.
    rewrite (equator_prayerTime self eq_refl eq_refl)
      by (apply zenith_cosine_range; cbn; lra).
    eexists. reflexivity. }
  assert (Hm : exists m, maghreb_t sample_julian_day self = inr m).
  { unfold maghreb_t.
    rewrite (equator_prayerTime self eq_refl eq_refl)
      by (apply zenith_cosine_range; cbn; lra).
    eexists. reflexivity. }
  assert (Hi : exists i, ishaa_t sample_julian_day sample_getHijri_month self = inr i).
  { unfold ishaa_t. cbn [ishaaZenith conf self equator_egyptian].
    rewrite (equator_prayerTime self eq_refl eq_refl)
      by (apply zenith_cosine_range; lra).
    eexists. reflexivity. }
  assert (Ha : exists a, asr_t sample_julian_day self = inr a).
  { destruct (equator_asr_t self eq_refl eq_refl) as [z [t [_ [_ Ha]]]].
    - cbn. lia.
    - eexists. exact Ha. }
  destruct Hf as [f Hf], Hs as [s Hs], Ha as [a Ha], Hm as [m Hm], Hi as [i Hi].
  destruct (prayer_times_ordered sample_julian_day sample_getHijri_month
              0 0 0 3 1 false equator_egyptian new_year_2000 0 f s a m i
              eq_refl ltac:(lia) ltac:(lra) Hf Hs Ha Hm Hi)
    as [d [Hd Horder]].
  exists f, s, d, a, m, i. repeat split; try assumption; apply Horder.
Defined.

(** C3 as stated fails.  At latitude -89.5 on 1 January 2000 the Fajr
    value does not exist: the hour angle raises.  For the Umm al-Qura configuration at the equator
    all six values exist, and Ishaa (the Dohr value) lies before
    Maghreb. *)
Lemma prayer_times_not_always_ordered :
  fajr_t sample_julian_day (mkPrayer antarctic_egyptian new_year_2000 0)
    = inl MathDomainError
  /\ exists f s d a m i,
       fajr_t sample_julian_day (mkPrayer equator_umm_al_qura new_year_2000 0) = inr f
       /\ sherook_t sample_julian_day (mkPrayer equator_umm_al_qura new_year_2000 0) = inr s
       /\ dohr_t sample_julian_day (mkPrayer equator_umm_al_qura new_year_2000 0) = inr d
       /\ asr_t sample_julian_day (mkPrayer equator_umm_al_qura new_year_2000 0) = inr a
       /\ maghreb_t sample_julian_day (mkPrayer equator_umm_al_qura new_year_2000 0) = inr m
       /\ ishaa_t sample_julian_day sample_getHijri_month
            (mkPrayer equator_umm_al_qura new_year_2000 0) = inr i
       /\ i = d /\ i < a /\ i < m /\ ~ (m < i).
Proof.
  split.
  { unfold fajr_t. rewrite antarctic_prayerTime by (try reflexivity; cbn; lra).
    reflexivity. }
  pose (self := mkPrayer equator_umm_al_qura new_year_2000 0).
  assert (Hpt : forall z, 23.44 < z < 156.56 ->
            __prayerTime sample_julian_day self z
            = inr (hour_angle (dcos z / dcos
                     (180 / (4 * atan 1) * asin (sin_declination 2451544.5))))).
  { intros z Hz. apply (equator_prayerTime self eq_refl eq_refl).
    apply zenith_cosine_range, Hz. }
  destruct (equator_asr_t self eq_refl eq_refl) as [z [ta [_ [Hta Ha]]]];
    [cbn; lia |].
  pose proof (prayerTime_bound _ _ _ _ Hta) as Bta.
  pose proof (prayerTime_bound _ _ _ _ (Hpt 90.83333 ltac:(lra))) as Btm.
  fold self.
  eexists. eexists. eexists. eexists. eexists. eexists.
  split; [unfold fajr_t; rewrite Hpt by (cbn; lra); reflexivity |].
  split; [unfold sherook_t; rewrite Hpt by (cbn; lra); reflexivity |].
  split; [reflexivity |].
  split; [exact Ha |].
  split; [unfold maghreb_t; rewrite Hpt by (cbn; lra); reflexivity |].
  split; [rewrite (ishaa_t_absent sample_julian_day sample_getHijri_month self eq_refl);
          rewrite Hpt by (cbn; lra); reflexivity |].
  fold self. change (maghrebZenith (conf self)) with 90.83333.
  repeat split; lra.
Qed.

Lemma asr_angle_decreasing (c : R) :
  90 - 180 / PI * (atan (2 + c) + 2 * atan 1)
  < 90 - 180 / PI * (atan (1 + c) + 2 * atan 1).
Proof.
  pose proof (atan_increasing (1 + c) (2 + c) ltac:(lra)) as Hatan.
  pose proof PI_RGT_0 as Hpi.
  assert (Hk : 0 < 180 / PI) by (apply Rdiv_lt_0_compat; lra).
  nra.
Qed.

(** The Asr zenith of the Shafii configuration at the equator on
    1 January 2000. *)
Lemma asrZenith_value_equator_2000 :
  exists delta,
    __sunDeclination sample_julian_day
      (mkPrayer equator_egyptian new_year_2000 0) = inr delta
    /\ -1 < sin_noon_altitude 0 delta < 1
    /\ sin_noon_altitude 0 delta <> 0
    /\ __asrZenith sample_julian_day (mkPrayer equator_egyptian new_year_2000 0)
       = inr (90 - 180 / PI
                   * (atan (1 + 1 / tan (atan (sin_noon_altitude 0 delta
                                                / sqrt (1 - (sin_noon_altitude 0 delta)²))))
                      + 2 * atan 1)).
Proof.
  pose (self := mkPrayer equator_egyptian new_year_2000 0).
  destruct (equator_asrZenith self eq_refl eq_refl ltac:(cbn; lia))
    as [Hx [Hnz _]].
  eexists. split; [apply (equator_sunDeclination self eq_refl) |].
  split; [exact Hx |]. split; [exact Hnz |].
  apply (asrZenith_value sample_julian_day self _
           (equator_sunDeclination self eq_refl) Hx Hnz).
Defined.

(** C5 as stated fails: at the equator on 1 January 2000 the Asr zenith
    returned is the value of the specification's formula minus 90. *)
Lemma asrZenith_differs_from_spec :
  exists delta z,
    __sunDeclination sample_julian_day
      (mkPrayer equator_egyptian new_year_2000 0) = inr delta
    /\ __asrZenith sample_julian_day (mkPrayer equator_egyptian new_year_2000 0)
       = inr z
    /\ z = spec_asrZenithDegrees 0 delta 1 - 90
    /\ z <> spec_asrZenithDegrees 0 delta 1.
Proof.
  pose (self := mkPrayer equator_egyptian new_year_2000 0).
  destruct (equator_asrZenith self eq_refl eq_refl ltac:(cbn; lia))
    as [_ [_ [Hz _]]].
  eexists. eexists. split; [apply (equator_sunDeclination self eq_refl) |].
  split; [exact Hz |].
  unfold spec_asrZenithDegrees, sin_noon_altitude. cbv zeta.
  change (IZR (asrMadhab (conf self))) with 1.
  rewrite asr_angle_negated. split; lra.
Qed.

(** Shafii and Hanafi at the equator on 1 January 2000. *)
Lemma asrZenith_hanafi_below_shafii_equator_2000 :
  exists z1 z2,
    __asrZenith sample_julian_day (mkPrayer equator_egyptian new_year_2000 0)
      = inr z1
    /\ __asrZenith sample_julian_day (mkPrayer equator_hanafi new_year_2000 0)
       = inr z2
    /\ z2 < z1 /\ - z1 < - z2.
Proof.
  destruct (equator_asrZenith (mkPrayer equator_egyptian new_year_2000 0)
              eq_refl eq_refl ltac:(cbn; lia)) as [_ [_ [Hz1 _]]].
  destruct (asrZenith_hanafi_below_shafii sample_julian_day
              (mkPrayer equator_egyptian new_year_2000 0)
              (mkPrayer equator_hanafi new_year_2000 0)
              _ eq_refl eq_refl eq_refl eq_refl Hz1) as [z2 Hz2].
  eexists. exists z2. split; [exact Hz1 | exact Hz2].
Defined.

(** C6 as stated fails: at the equator on 1 January 2000 the value
    returned for Hanafi is not greater than or equal to the one returned
    for Shafii. *)
Lemma asrZenith_hanafi_not_above_shafii :
  exists z1 z2,
    __asrZenith sample_julian_day (mkPrayer equator_egyptian new_year_2000 0)
      = inr z1
    /\ __asrZenith sample_julian_day (mkPrayer equator_hanafi new_year_2000 0)
       = inr z2
    /\ ~ (z2 >= z1).
Proof.
  destruct (equator_asrZenith (mkPrayer equator_egyptian new_year_2000 0)
              eq_refl eq_refl ltac:(cbn; lia)) as [_ [_ [Hz1 _]]].
  destruct (equator_asrZenith (mkPrayer equator_hanafi new_year_2000 0)
              eq_refl eq_refl ltac:(cbn; lia)) as [_ [_ [Hz2 _]]].
  eexists. eexists. split; [exact Hz1 |]. split; [exact Hz2 |].
  cbn [asrMadhab conf equator_egyptian equator_hanafi].
  match goal with
  | |- ~ (_ - _ * (atan (2 + ?c) + _) >= _) =>
      pose proof (asr_angle_decreasing c) as Hlt
  end.
  lra.
Qed.




(** ** Further properties of the time converter *)

Section ConverterProperties.

(** A converter that returns had a numeric shift. *)
Lemma hoursToTime_returns_numeric (val : R) (shift : value) (st : bool) (t : time) :
  __hoursToTime val shift st = inr t -> exists sh, number shift = inr sh.
Proof.
  intros Ht. apply numeric_number.
  destruct (numeric shift) eqn:Hnum; [reflexivity |].
  rewrite hoursToTime_non_numeric in Ht by exact Hnum. discriminate.
Qed.

(** What a returned time is made of. *)
Lemma hoursToTime_fields (val : R) (shift : value) (st : bool) (sh : R) (t : time) :
  number shift = inr sh ->
  __hoursToTime val shift st = inr t ->
  let hours := val + sh / 3600 in
  let minutes := (hours - IZR (floor hours)) * 60 in
  let seconds := (minutes - IZR (floor minutes)) * 60 in
  hour t = (floor hours + (if st then 1 else 0))%Z
  /\ minute t = floor minutes /\ second t = floor seconds
  /\ (0 <= hour t < 24)%Z.
Proof.
  intros Hsh Ht hours minutes seconds.
  rewrite (hoursToTime_numeric _ _ _ _ Hsh) in Ht. cbv zeta in Ht.
  fold hours in Ht. fold minutes in Ht. fold seconds in Ht.
  rewrite datetime_time_hour in Ht by apply floor_sixtieth.
  destruct (in_range _ 0 24) eqn:Hr; [| discriminate].
  apply in_range_spec in Hr. injection Ht as <-. cbn. auto.
Qed.

(** X1: summer time moves the hour, and only the hour: when the converter
    returns (h, m, s) without summer time, with summer time it returns
    (h + 1, m, s) if h is below 23 and raises if h is 23. *)
Theorem summer_time_adds_one_hour (val : R) (shift : value) (t : time) :
  __hoursToTime val shift false = inr t ->
  ((hour t < 23)%Z ->
     __hoursToTime val shift true
       = inr (mk_time (hour t + 1) (minute t) (second t)))
  /\ (hour t = 23%Z -> __hoursToTime val shift true = inl TimeRangeError).
Proof.
  intros Ht.
  destruct (hoursToTime_returns_numeric _ _ _ _ Ht) as [sh Hsh].
  destruct (hoursToTime_fields _ _ _ _ _ Hsh Ht) as [Hh [Hm [Hs Hrange]]].
  split.
  - intros Hlt.
    rewrite (hoursToTime_numeric _ _ _ _ Hsh). cbv zeta.
    rewrite datetime_time_hour by apply floor_sixtieth.
    rewrite <- Hs, <- Hm.
    replace (floor (val + sh / 3600) + 1)%Z with (hour t + 1)%Z by lia.
    assert (Hr : in_range (hour t + 1) 0 24 = true)
      by (apply in_range_spec; lia).
    rewrite Hr. reflexivity.
  - intros H23. apply (hoursToTime_out_of_range _ _ _ _ Hsh). lia.
Qed.

Lemma summer_time_adds_one_hour_12_30 :
  __hoursToTime 12.5 (VInt 0) false = inr (mk_time 12 30 0)
  /\ __hoursToTime 12.5 (VInt 0) true = inr (mk_time 13 30 0).
Proof.
  assert (H : __hoursToTime 12.5 (VInt 0) false = inr (mk_time 12 30 0)).
  { rewrite (hoursToTime_numeric 12.5 (VInt 0) false 0 eq_refl). cbv zeta.
    assert (Hh : floor (12.5 + 0 / 3600) = 12%Z)
      by (apply Zfloor_eq; simpl; lra).
    rewrite Hh.
    assert (Hm : floor ((12.5 + 0 / 3600 - 12) * 60) = 30%Z)
      by (apply Zfloor_eq; simpl; lra).
    rewrite Hm.
    assert (Hs : floor (((12.5 + 0 / 3600 - 12) * 60 - 30) * 60) = 0%Z)
      by (apply Zfloor_eq; simpl; lra).
    rewrite Hs. reflexivity. }
  split; [exact H |].
  apply (summer_time_adds_one_hour 12.5 (VInt 0) _ H). cbn. lia.
Defined.



End ConverterProperties.

(** ** Further properties of the configuration *)

(** X4: construction never raises, whatever the zenith reference and the
    madhab.  The Ishaa zenith is absent exactly for the reference 4; the
    madhab kept is 2 exactly when 2 was given and 1 otherwise; the Fajr
    zenith lies in 105..109.5 and an Ishaa zenith, when present, lies
    between 105 and the Fajr zenith; sunrise and sunset share one zenith;
    the middle longitude is fifteen times the time zone. *)
Theorem PrayerConf_init_invariants lon lat tz zenith_ref asr_madhab st :
  exists c, PrayerConf_init lon lat tz zenith_ref asr_madhab st = inr c
    /\ longitude c = lon /\ latitude c = lat /\ timezone c = tz
    /\ summerTime c = st
    /\ middleLongitude c = tz * 15
    /\ longitudeDifference c = (middleLongitude c - longitude c) / 15
    /\ (ishaaZenith c = None <-> zenith_ref = 4%Z)
    /\ (asrMadhab c = 2%Z <-> asr_madhab = 2%Z)
    /\ (asrMadhab c = 1%Z <-> asr_madhab <> 2%Z)
    /\ 105 <= fajrZenith c <= 109.5
    /\ (forall z, ishaaZenith c = Some z -> 105 <= z <= fajrZenith c)
    /\ sherookZenith c = maghrebZenith c.
Proof.
  unfold PrayerConf_init.
  change (zeniths !! 3%Z) with (Some (109.5, Some 107.5)). run.
  assert (Hmadhab : forall m, m = (if (asr_madhab =? 2)%Z then asr_madhab else 1%Z) ->
            (m = 2%Z <-> asr_madhab = 2%Z) /\ (m = 1%Z <-> asr_madhab <> 2%Z)).
  { intros m ->. destruct (Z.eqb_spec asr_madhab 2); lia. }
  destruct (decide (1 <= zenith_ref <= 5)%Z) as [Hin | Hout].
  - assert (Hcases : zenith_ref = 1%Z \/ zenith_ref = 2%Z \/ zenith_ref = 3%Z
                     \/ zenith_ref = 4%Z \/ zenith_ref = 5%Z) by lia.
    destruct Hcases as [-> | [-> | [-> | [-> | ->]]]];
      [ change (zeniths !! 1%Z) with (Some (108.0, Some 108.0))
      | change (zeniths !! 2%Z) with (Some (108.0, Some 107.0))
      | change (zeniths !! 3%Z) with (Some (109.5, Some 107.5))
      | change (zeniths !! 4%Z) with (Some (108.5, @None R))
      | change (zeniths !! 5%Z) with (Some (105.0, Some 105.0)) ];
      cbn [default]; eexists; (split; [reflexivity |]); cbn;
      repeat match goal with |- _ /\ _ => split end;
      try reflexivity; try apply Hmadhab; try reflexivity; try lra;
      try (split; [discriminate | lia]);
      try (intros z [= <-]; lra); try (intros z; discriminate);
      try (split; reflexivity).
  - rewrite zeniths_lookup_unknown by lia. cbn [default].
    eexists; (split; [reflexivity |]); cbn.
    repeat match goal with |- _ /\ _ => split end;
      try reflexivity; try apply Hmadhab; try reflexivity; try lra.
    + split; [discriminate | lia].
    + intros z [= <-]. lra.
Qed.

(** ** Further properties of solar noon *)

Section SolarNoonProperties.

Context {Date : Type}.
Variable gregorianToJulianDay : Date -> R.
Variable getHijri_month : Date -> Z -> Z.

(** X5: the equation of time stays within 17.83 minutes, so solar noon is
    within 0.3 hours of 12 plus the longitude difference, for every date. *)
Theorem solar_noon_near_mean_noon (self : Prayer Date) :
  -17.83 <= __equationOfTime gregorianToJulianDay self <= 17.83
  /\ 12 + longitudeDifference (conf self) - 0.3
     < __dohrTime gregorianToJulianDay self
     < 12 + longitudeDifference (conf self) + 0.3.
Proof.
  unfold __dohrTime, __equationOfTime. cbv zeta.
  repeat match goal with
         | |- context [dsin ?t] =>
             let H := fresh "Hsin" in
             pose proof (dsin_bound t) as H;
             let s := fresh "s" in
             set (s := dsin t) in *; clearbody s
         end.
  split; [split |]; lra.
Qed.

(** The hour angle depends on the latitude and the date alone. *)
Lemma prayerTime_location (p q : Prayer Date) (zenith : R) :
  latitude (conf p) = latitude (conf q) ->
  date p = date q ->
  __prayerTime gregorianToJulianDay p zenith
  = __prayerTime gregorianToJulianDay q zenith.
Proof.
  intros Hlat Hdate. unfold __prayerTime, __sunDeclination.
  rewrite Hlat, Hdate. reflexivity.
Qed.

Lemma asrZenith_location (p q : Prayer Date) :
  latitude (conf p) = latitude (conf q) ->
  asrMadhab (conf p) = asrMadhab (conf q) ->
  date p = date q ->
  __asrZenith gregorianToJulianDay p = __asrZenith gregorianToJulianDay q.
Proof.
  intros Hlat Hmadhab Hdate. unfold __asrZenith, __sunDeclination.
  rewrite Hlat, Hmadhab, Hdate. reflexivity.
Qed.

(** X6: sunrise and sunset are symmetric about solar noon.  For a
    configuration as construction builds it, when the Sherook value is [s]
    the Maghreb value exists too, their mean is the Dohr value, and the
    day between them is shorter than 24 hours. *)
Theorem sunrise_sunset_symmetric lon lat tz zenith_ref asr_madhab st cfg
    (dat : Date) (correction : Z) (s : R) :
  PrayerConf_init lon lat tz zenith_ref asr_madhab st = inr cfg ->
  sherook_t gregorianToJulianDay (mkPrayer cfg dat correction) = inr s ->
  exists m,
    maghreb_t gregorianToJulianDay (mkPrayer cfg dat correction) = inr m
    /\ (s + m) / 2 = __dohrTime gregorianToJulianDay (mkPrayer cfg dat correction)
    /\ 0 < m - s < 24.
Proof.
  intros Hcfg Hs.
  destruct (PrayerConf_init_fields _ _ _ _ _ _ _ Hcfg) as [_ [Hsz [Hmz _]]].
  unfold sherook_t in Hs. apply value_minus_inv in Hs as [t [Ht ->]].
  cbn [conf] in Ht. rewrite Hsz in Ht.
  pose proof (prayerTime_bound _ _ _ _ Ht) as Hb.
  exists (__dohrTime gregorianToJulianDay (mkPrayer cfg dat correction) + t).
  unfold maghreb_t. cbn [conf]. rewrite Hmz, Ht. run.
  repeat split; lra.
Qed.

End SolarNoonProperties.

(** Sunrise and sunset at the equator on 1 January 2000. *)
Lemma sunrise_sunset_symmetric_equator_2000 :
  exists s m,
    sherook_t sample_julian_day (mkPrayer equator_egyptian new_year_2000 0) = inr s
    /\ maghreb_t sample_julian_day (mkPrayer equator_egyptian new_year_2000 0) = inr m
    /\ (s + m) / 2
       = __dohrTime sample_julian_day (mkPrayer equator_egyptian new_year_2000 0)
    /\ 0 < m - s < 24.
Proof.
  pose (self := mkPrayer equator_egyptian new_year_2000 0).
  assert (Hs : sherook_t sample_julian_day self
               = inr (__dohrTime sample_julian_day self
                      - hour_angle (dcos 90.83333 / dcos
                          (180 / (4 * atan 1) * asin (sin_declination 2451544.5))))).
  { unfold sherook_t.
    rewrite (equator_prayerTime self eq_refl eq_refl)
      by (apply zenith_cosine_range; cbn; lra).
    reflexivity. }
  destruct (sunrise_sunset_symmetric sample_julian_day 0 0 0 3 1 false
              equator_egyptian new_year_2000 0 _ eq_refl Hs) as [m Hm].
  eexists. exists m. split; [exact Hs | exact Hm].
Defined.

(** ** Outcomes of the sun declination *)

Section Outcomes.

Context {Date : Type}.
Variable gregorianToJulianDay : Date -> R.

Lemma sin_declination_bound (jd : R) : -1 <= sin_declination jd <= 1.
Proof.
  unfold sin_declination. cbv zeta.
  match goal with
  | |- _ <= dsin ?a * dsin ?b <= _ =>
      pose proof (dsin_bound a); pose proof (dsin_bound b)
  end.
  split; nra.
Qed.

Lemma sunDeclination_unit (self : Prayer Date) :
  let x := sin_declination (gregorianToJulianDay (date self)) in
  x = 1 \/ x = -1 ->
  __sunDeclination gregorianToJulianDay self = inl ZeroDivisionError.
Proof.
  intros x Hx. unfold __sunDeclination. cbv zeta.
  fold (sin_declination (gregorianToJulianDay (date self))). fold x.
  assert (Hzero : - x * x + 1 = 0) by (destruct Hx as [-> | ->]; lra).
  rewrite Hzero, math_sqrt_inr by lra. run.
  rewrite sqrt_0, truediv_zero. reflexivity.
Qed.

Lemma sunDeclination_error (self : Prayer Date) (e : exn) :
  __sunDeclination gregorianToJulianDay self = inl e -> e = ZeroDivisionError.
Proof.
  intros He.
  pose proof (sin_declination_bound (gregorianToJulianDay (date self))) as Hb.
  set (x := sin_declination (gregorianToJulianDay (date self))) in *.
  destruct (Req_dec_T x 1) as [H1 | H1];
    [| destruct (Req_dec_T x (-1)) as [Hm1 | Hm1]].
  - rewrite (sunDeclination_unit self (or_introl H1)) in He. congruence.
  - rewrite (sunDeclination_unit self (or_intror Hm1)) in He. congruence.
  - rewrite (sunDeclination_inr gregorianToJulianDay self) in He
      by (fold x; lra).
    discriminate.
Qed.

Lemma degrees_of_acute (a : R) :
  - (PI / 2) < a < PI / 2 -> -90 < 180 / PI * a < 90.
Proof.
  intros Ha. pose proof PI_RGT_0 as Hpi.
  assert (Hk : 0 < 180 / PI) by (apply Rdiv_lt_0_compat; lra).
  assert (Hhalf : 180 / PI * (PI / 2) = 90) by (field; lra).
  split.
  - replace (-90) with (180 / PI * - (PI / 2)) by lra.
    apply Rmult_lt_compat_l; lra.
  - rewrite <- Hhalf. apply Rmult_lt_compat_l; lra.
Qed.

(** X7: the sun declination never fails in the square root.  The sine [x]
    of the declination lies in -1..1; strictly inside, the declination is
    returned, lies strictly between -90 and 90 degrees and has the sine
    [x]; at 1 or -1 the call raises the division by zero. *)
Theorem sunDeclination_outcome (self : Prayer Date) :
  let x := sin_declination (gregorianToJulianDay (date self)) in
  -1 <= x <= 1
  /\ __sunDeclination gregorianToJulianDay self <> inl MathDomainError
  /\ ((-1 < x < 1
       /\ exists delta,
            __sunDeclination gregorianToJulianDay self = inr delta
            /\ -90 < delta < 90 /\ dsin delta = x /\ 0 < dcos delta)
      \/ ((x = 1 \/ x = -1)
          /\ __sunDeclination gregorianToJulianDay self
             = inl ZeroDivisionError)).
Proof.
  intros x.
  pose proof (sin_declination_bound (gregorianToJulianDay (date self))) as Hb.
  fold x in Hb. split; [exact Hb |]. split.
  - intros He. apply sunDeclination_error in He. discriminate.
  - destruct (Req_dec_T x 1) as [H1 | H1];
      [| destruct (Req_dec_T x (-1)) as [Hm1 | Hm1]].
    + right. split; [left; exact H1 |].
      apply (sunDeclination_unit self). left. exact H1.
    + right. split; [right; exact Hm1 |].
      apply (sunDeclination_unit self). right. exact Hm1.
    + left. assert (Hx : -1 < x < 1) by lra. split; [exact Hx |].
      exists (180 / (4 * atan 1) * asin x). split.
      * apply (sunDeclination_inr gregorianToJulianDay self). exact Hx.
      * destruct (declination_sin_cos x Hx) as [Hsin [_ Hpos]].
        split; [| split; assumption].
        rewrite four_atan_1. apply degrees_of_acute, asin_bound_lt, Hx.
Qed.

End Outcomes.

(** ** Zenith, latitude and the hour angle *)

Section ZenithOrder.

Context {Date : Type}.
Variable gregorianToJulianDay : Date -> R.

(** X10: between the poles, a larger zenith is reached further from solar
    noon: of two zeniths in 0..180 that both have an hour angle, the larger
    one has the larger hour angle. *)
Theorem hour_angle_grows_with_zenith (self : Prayer Date) (z1 z2 t1 t2 : R) :
  -90 < latitude (conf self) < 90 ->
  0 <= z1 -> z1 < z2 -> z2 <= 180 ->
  __prayerTime gregorianToJulianDay self z1 = inr t1 ->
  __prayerTime gregorianToJulianDay self z2 = inr t2 ->
  t1 < t2.
Proof.
  intros Hlat H0 Hlt H180 H1 H2.
  apply (prayerTime_monotone gregorianToJulianDay self z2 z1 t2 t1);
    try assumption.
  - apply dcos_pos, Hlat.
  - apply dcos_decreasing; assumption.
Qed.

Lemma prayerTime_domain_error (self : Prayer Date) (zenith delta : R) :
  __sunDeclination gregorianToJulianDay self = inr delta ->
  dcos (latitude (conf self)) * dcos delta <> 0 ->
  cos_hour_angle (latitude (conf self)) delta zenith < -1 ->
  __prayerTime gregorianToJulianDay self zenith = inl MathDomainError.
Proof.
  intros Hd Hden Hs. unfold __prayerTime. rewrite Hd. run.
  rewrite truediv_inr by exact Hden. run.
  fold (cos_hour_angle (latitude (conf self)) delta zenith).
  set (s := cos_hour_angle (latitude (conf self)) delta zenith) in *.
  unfold math_sqrt.
  destruct (Rlt_dec (- s * s + 1) 0) as [_ | Hge];
    [reflexivity | exfalso; apply Hge; nra].
Qed.


End ZenithOrder.

(** Sunset and the Fajr zenith at the equator on 1 January 2000. *)
Lemma hour_angle_grows_with_zenith_equator_2000 :
  exists t1 t2,
    __prayerTime sample_julian_day
      (mkPrayer equator_egyptian new_year_2000 0) 90.83333 = inr t1
    /\ __prayerTime sample_julian_day
         (mkPrayer equator_egyptian new_year_2000 0) 109.5 = inr t2
    /\ t1 < t2.
Proof.
  pose (self := mkPrayer equator_egyptian new_year_2000 0).
  pose proof (equator_prayerTime self eq_refl eq_refl 90.83333
                (zenith_cosine_range 90.83333 ltac:(lra))) as H1.
  pose proof (equator_prayerTime self eq_refl eq_refl 109.5
                (zenith_cosine_range 109.5 ltac:(lra))) as H2.
  eexists. eexists. split; [exact H1 |]. split; [exact H2 |].
  apply (hour_angle_grows_with_zenith sample_julian_day self 90.83333 109.5
           _ _ ltac:(cbn; lra) ltac:(lra) ltac:(lra) ltac:(lra) H1 H2).
Defined.

(** At latitude -89.5 on 1 January 2000 the hour-angle cosine of every
    zenith from 90.5 degrees on is below -1. *)
Lemma antarctic_cos_hour_angle (zenith : R) :
  90.5 <= zenith <= 180 ->
  cos_hour_angle (-89.5)
    (180 / (4 * atan 1) * asin (sin_declination 2451544.5)) zenith < -1.
Proof.
  intros Hz.
  pose proof equator_declination as [Hsin [Hlo Hhi]].
  pose proof dcos_23_44 as [Hc _].
  pose proof sin_declination_2000_range as Hx0.
  pose proof PI_RGT_0 as Hpi.
  set (delta0 := 180 / (4 * atan 1) * asin (sin_declination 2451544.5)) in *.
  unfold cos_hour_angle. rewrite Hsin.
  assert (Hsinlat : dsin (-89.5) < 0).
  { unfold dsin. apply sin_lt_0_var; lra. }
  assert (Hcoslat : 0 < dcos (-89.5)) by (apply dcos_pos; lra).
  assert (Hzen : dcos zenith <= - dcos (-89.5)).
  { replace (dcos (-89.5)) with (dcos 89.5)
      by (rewrite <- dcos_neg; f_equal; lra).
    replace (- dcos 89.5) with (dcos 90.5)
      by (unfold dcos; rewrite <- cos_pi_minus; f_equal; lra).
    destruct (proj1 Hz) as [Hlt | <-]; [| lra].
    apply Rlt_le, dcos_decreasing; lra. }
  set (num := dcos zenith - dsin (-89.5) * sin_declination 2451544.5).
  set (den := dcos (-89.5) * dcos delta0).
  assert (Hden : 0 < den) by (unfold den; nra).
  assert (Hnum : num < - den) by (unfold num, den; nra).
  assert (Hinv : 0 < / den) by (apply Rinv_0_lt_compat; lra).
  assert (Hone : den * / den = 1) by (apply Rinv_r; lra).
  unfold Rdiv. nra.
Qed.


(** ** The madhab, the method and the six values *)

(** The configuration construction returns, field by field. *)
Lemma PrayerConf_init_shape lon lat tz zenith_ref asr_madhab st c :
  PrayerConf_init lon lat tz zenith_ref asr_madhab st = inr c ->
  c = mkPrayerConf lon lat tz 90.83333 90.83333
        (if (asr_madhab =? 2)%Z then asr_madhab else 1%Z)
        (tz * 15) ((tz * 15 - lon) / 15) st
        (fst (default (109.5, Some 107.5) (zeniths !! zenith_ref)))
        (snd (default (109.5, Some 107.5) (zeniths !! zenith_ref))).
Proof.
  unfold PrayerConf_init.
  change (zeniths !! 3%Z) with (Some (109.5, Some 107.5)). run.
  destruct (default (109.5, Some 107.5) (zeniths !! zenith_ref)) as [fz iz].
  intros [= <-]. reflexivity.
Qed.

Section MadhabAndMethod.

Context {Date : Type}.
Variable gregorianToJulianDay : Date -> R.

Lemma dohrTime_location (p q : Prayer Date) :
  longitudeDifference (conf p) = longitudeDifference (conf q) ->
  date p = date q ->
  __dohrTime gregorianToJulianDay p = __dohrTime gregorianToJulianDay q.
Proof.
  intros Hld Hdate. unfold __dohrTime, __equationOfTime.
  rewrite Hld, Hdate. reflexivity.
Qed.

(** X12: the Hanafi Asr is the later one.  For two configurations built
    from the same inputs but the madhab (1 and 2), at a latitude strictly
    between -90 and 90, whenever both Asr values exist the Hanafi value is
    greater than the Shafii value. *)
Theorem hanafi_asr_later lon lat tz zenith_ref st shafii hanafi
    (dat : Date) (c1 c2 : Z) (a1 a2 : R) :
  PrayerConf_init lon lat tz zenith_ref 1 st = inr shafii ->
  PrayerConf_init lon lat tz zenith_ref 2 st = inr hanafi ->
  -90 < lat < 90 ->
  asr_t gregorianToJulianDay (mkPrayer shafii dat c1) = inr a1 ->
  asr_t gregorianToJulianDay (mkPrayer hanafi dat c2) = inr a2 ->
  a1 < a2.
Proof.
  intros Hs Hh Hlat Ha1 Ha2.
  apply PrayerConf_init_shape in Hs, Hh. cbn in Hs, Hh.
  set (p := mkPrayer shafii dat c1) in *. set (q := mkPrayer hanafi dat c2) in *.
  assert (Hlatp : latitude (conf p) = lat) by (unfold p; rewrite Hs; reflexivity).
  assert (Hlatq : latitude (conf q) = lat) by (unfold q; rewrite Hh; reflexivity).
  assert (Hmp : asrMadhab (conf p) = 1%Z) by (unfold p; rewrite Hs; reflexivity).
  assert (Hmq : asrMadhab (conf q) = 2%Z) by (unfold q; rewrite Hh; reflexivity).
  assert (Hdohr : __dohrTime gregorianToJulianDay q
                  = __dohrTime gregorianToJulianDay p).
  { apply dohrTime_location; [unfold p, q; rewrite Hs, Hh |]; reflexivity. }
  unfold asr_t in Ha1, Ha2.
  apply bind_returns in Ha1 as [z1 [Hz1 Ha1]].
  apply value_plus_inv in Ha1 as [t1 [Ht1 ->]].
  apply bind_returns in Ha2 as [z2 [Hz2 Ha2]].
  apply value_plus_inv in Ha2 as [t2 [Ht2 ->]].
  rewrite Hdohr.
  assert (Hcoslat : 0 < dcos (latitude (conf p)))
    by (rewrite Hlatp; apply dcos_pos, Hlat).
  rewrite (prayerTime_location gregorianToJulianDay q p z2) in Ht2
    by (rewrite ?Hlatp, ?Hlatq; reflexivity).
  (* the two zeniths *)
  apply asrZenith_inv in Hz1 as Hinv1.
  destruct Hinv1 as [delta [Hd [Hx [Hnz Hz1eq]]]].
  apply asrZenith_inv in Hz2 as Hinv2.
  destruct Hinv2 as [delta' [Hd' [_ [_ Hz2eq]]]].
  assert (delta' = delta) as ->.
  { unfold __sunDeclination in Hd, Hd'. cbn [date p q] in Hd, Hd'. congruence. }
  rewrite Hlatq, Hmq in Hz2eq. rewrite Hlatp, Hmp in Hz1eq.
  rewrite Hlatp in Hx, Hnz.
  set (x := sin_noon_altitude lat delta) in *.
  set (c := 1 / tan (atan (x / sqrt (1 - x²)))) in *.
  (* the sun is above the horizon at noon, as the Shafii hour angle exists *)
  pose proof (asrZenith_dcos_pos _ _ _ Hz1) as Hcosz1.
  apply prayerTime_inv in Ht1 as Hinv. destruct Hinv as [d1 [Hd1 [_ [Hs1 _]]]].
  assert (d1 = delta) as -> by congruence.
  apply sunDeclination_inv in Hd as Hdelta. destruct Hdelta as [Hxd Hdelta].
  pose proof (declination_sin_cos _ Hxd) as [_ [_ Hpos]]. cbv zeta in Hpos.
  rewrite <- Hdelta in Hpos.
  assert (Hxpos : 0 < x).
  { unfold x, sin_noon_altitude. unfold cos_hour_angle in Hs1.
    rewrite Hlatp in Hs1, Hcoslat.
    assert (Hden : 0 < dcos lat * dcos delta) by nra.
    assert (Hinvd : 0 < / (dcos lat * dcos delta))
      by (apply Rinv_0_lt_compat; exact Hden).
    assert (Hone : dcos lat * dcos delta * / (dcos lat * dcos delta) = 1)
      by (apply Rinv_r; lra).
    unfold Rdiv in Hs1. nra. }
  assert (Hc : 0 < c).
  { unfold c. rewrite tan_atan.
    assert (Hrt : 0 < sqrt (1 - x²)) by (apply sqrt_lt_R0; unfold Rsqr; nra).
    apply Rdiv_lt_0_compat; [lra |]. apply Rdiv_lt_0_compat; lra. }
  assert (Hcos : dcos z2 < dcos z1).
  { rewrite Hz1eq, Hz2eq, !dcos_asr_angle.
    pose proof (atan_increasing 0 (1 + c) ltac:(lra)) as Hlo.
    rewrite atan_0 in Hlo.
    pose proof (atan_increasing (1 + c) (2 + c) ltac:(lra)) as Hinc.
    pose proof (atan_bound (2 + c)) as [_ Hhi].
    pose proof PI_RGT_0 as Hpi.
    apply cos_decreasing_1; lra. }
  pose proof (prayerTime_monotone gregorianToJulianDay p z2 z1 t2 t1
                Hcoslat Ht2 Ht1 Hcos).
  lra.
Qed.

(** X13: whatever the zenith reference, Umm al-Qura and unknown ones
    included, the first five values are in order.  For a configuration
    built with a latitude strictly between -90 and 90, whenever the Fajr,
    Sherook, Asr and Maghreb values exist, Fajr < Sherook < Dohr < Asr <
    Maghreb, and all lie within 12 hours of Dohr. *)
Theorem five_times_ordered lon lat tz zenith_ref asr_madhab st cfg
    (dat : Date) (correction : Z) (f s a m : R) :
  PrayerConf_init lon lat tz zenith_ref asr_madhab st = inr cfg ->
  -90 < lat < 90 ->
  fajr_t gregorianToJulianDay (mkPrayer cfg dat correction) = inr f ->
  sherook_t gregorianToJulianDay (mkPrayer cfg dat correction) = inr s ->
  asr_t gregorianToJulianDay (mkPrayer cfg dat correction) = inr a ->
  maghreb_t gregorianToJulianDay (mkPrayer cfg dat correction) = inr m ->
  f < s /\ s < __dohrTime gregorianToJulianDay (mkPrayer cfg dat correction)
  /\ __dohrTime gregorianToJulianDay (mkPrayer cfg dat correction) < a
  /\ a < m
  /\ __dohrTime gregorianToJulianDay (mkPrayer cfg dat correction) - 12 < f
  /\ m < __dohrTime gregorianToJulianDay (mkPrayer cfg dat correction) + 12.
Proof.
  intros Hcfg Hlat Hf Hs Ha Hm.
  set (self := mkPrayer cfg dat correction) in *.
  destruct (PrayerConf_init_fields _ _ _ _ _ _ _ Hcfg)
    as [Hlatc [Hsz [Hmz [_ [_ [H4 Hother]]]]]].
  assert (Hfz : 90.83333 < fajrZenith cfg <= 180).
  { destruct (Z.eq_dec zenith_ref 4%Z) as [Heq | Hne].
    - destruct (H4 Heq) as [-> _]. lra.
    - apply (Hother Hne). }
  assert (Hcoslat : 0 < dcos (latitude (conf self))).
  { cbn [conf self]. rewrite Hlatc. apply dcos_pos, Hlat. }
  unfold fajr_t in Hf. apply value_minus_inv in Hf as [tf [Htf ->]].
  unfold sherook_t in Hs. apply value_minus_inv in Hs as [ts [Hts ->]].
  unfold maghreb_t in Hm. apply value_plus_inv in Hm as [tm [Htm ->]].
  unfold asr_t in Ha. apply bind_returns in Ha as [za [Hza Ha]].
  apply value_plus_inv in Ha as [ta [Hta ->]].
  cbn [conf self] in Htf, Hts, Htm. rewrite Hsz in Hts. rewrite Hmz in Htm.
  pose proof (prayerTime_bound _ _ _ _ Hts) as Bs.
  pose proof (prayerTime_bound _ _ _ _ Hta) as Ba.
  pose proof (prayerTime_bound _ _ _ _ Htf) as Bf.
  pose proof (prayerTime_bound _ _ _ _ Htm) as Bm.
  assert (Hfs : ts < tf).
  { apply (prayerTime_monotone gregorianToJulianDay self
             (fajrZenith cfg) 90.83333 tf ts Hcoslat Htf Hts).
    apply dcos_decreasing; lra. }
  assert (Ham : ta < tm).
  { apply (prayerTime_monotone gregorianToJulianDay self
             90.83333 za tm ta Hcoslat Htm Hta).
    pose proof (asrZenith_dcos_pos _ _ _ Hza) as Hpos.
    pose proof (dcos_obtuse 90.83333 ltac:(lra)) as Hneg. lra. }
  repeat split; lra.
Qed.

End MadhabAndMethod.

(** Shafii and Hanafi Asr at the equator on 1 January 2000. *)
Lemma hanafi_asr_later_equator_2000 :
  exists a1 a2,
    asr_t sample_julian_day (mkPrayer equator_egyptian new_year_2000 0) = inr a1
    /\ asr_t sample_julian_day (mkPrayer equator_hanafi new_year_2000 0) = inr a2
    /\ a1 < a2.
Proof.
  destruct (equator_asr_t (mkPrayer equator_egyptian new_year_2000 0)
              eq_refl eq_refl ltac:(cbn; lia)) as [z1 [t1 [_ [_ Ha1]]]].
  destruct (equator_asr_t (mkPrayer equator_hanafi new_year_2000 0)
              eq_refl eq_refl ltac:(cbn; lia)) as [z2 [t2 [_ [_ Ha2]]]].
  eexists. eexists. split; [exact Ha1 |]. split; [exact Ha2 |].
  apply (hanafi_asr_later sample_julian_day 0 0 0 3 false
           equator_egyptian equator_hanafi new_year_2000 0 0 _ _
           eq_refl eq_refl ltac:(lra) Ha1 Ha2).
Defined.

(** The first five values of the Umm al-Qura configuration at the equator
    on 1 January 2000. *)
Lemma five_times_ordered_equator_2000 :
  exists f s a m,
    fajr_t sample_julian_day (mkPrayer equator_umm_al_qura new_year_2000 0) = inr f
    /\ sherook_t sample_julian_day (mkPrayer equator_umm_al_qura new_year_2000 0) = inr s
    /\ asr_t sample_julian_day (mkPrayer equator_umm_al_qura new_year_2000 0) = inr a
    /\ maghreb_t sample_julian_day (mkPrayer equator_umm_al_qura new_year_2000 0) = inr m
    /\ f < s
    /\ s < __dohrTime sample_julian_day (mkPrayer equator_umm_al_qura new_year_2000 0)
    /\ __dohrTime sample_julian_day (mkPrayer equator_umm_al_qura new_year_2000 0) < a
    /\ a < m
    /\ __dohrTime sample_julian_day (mkPrayer equator_umm_al_qura new_year_2000 0) - 12 < f
    /\ m < __dohrTime sample_julian_day (mkPrayer equator_umm_al_qura new_year_2000 0) + 12.
Proof.
  pose (self := mkPrayer equator_umm_al_qura new_year_2000 0).
  assert (Hf : exists f, fajr_t sample_julian_day self = inr f).
  { unfold fajr_t.
    rewrite (equator_prayerTime self eq_refl eq_refl)
      by (apply zenith_cosine_range; cbn; lra).
    eexists. reflexivity. }
  assert (Hs : exists s, sherook_t sample_julian_day self = inr s).
  { unfold sherook_t.
    rewrite (equator_prayerTime self eq_refl eq_refl)
      by (apply zenith_cosine_range; cbn; lra).
    eexists. reflexivity. }
  assert (Hm : exists m, maghreb_t sample_julian_day self = inr m).
  { unfold maghreb_t.
    rewrite (equator_prayerTime self eq_refl eq_refl)
      by (apply zenith_cosine_range; cbn; lra).
    eexists. reflexivity. }
  assert (Ha : exists a, asr_t sample_julian_day self = inr a).
  { destruct (equator_asr_t self eq_refl eq_refl) as [z [t [_ [_ Ha]]]].
    - cbn. lia.
    - eexists. exact Ha. }
  destruct Hf as [f Hf], Hs as [s Hs], Ha as [a Ha], Hm as [m Hm].
  exists f, s, a, m.
  split; [exact Hf |]. split; [exact Hs |]. split; [exact Ha |].
  split; [exact Hm |].
  apply (five_times_ordered sample_julian_day 0 0 0 4 1 false
           equator_umm_al_qura new_year_2000 0 f s a m
           eq_refl ltac:(lra) Hf Hs Ha Hm).
Defined.

(** ** What the results depend on *)

Section Dependence.

Context {Date : Type}.
Variable gregorianToJulianDay : Date -> R.

(** X14: neither the correction value nor the Hijri calendar reaches a
    result.  For one configuration, date and shift, the Ishaa accessor
    returns the same for any two correction values and any two Hijri month
    functions, and so does its decimal-hour value. *)
Theorem ishaa_ignores_hijri (cfg : PrayerConf) (dat : Date)
    (correction1 correction2 : Z)
    (getHijri_month1 getHijri_month2 : Date -> Z -> Z) (shift : value) :
  ishaa_t gregorianToJulianDay getHijri_month1 (mkPrayer cfg dat correction1)
  = ishaa_t gregorianToJulianDay getHijri_month2 (mkPrayer cfg dat correction2)
  /\ ishaaTime gregorianToJulianDay getHijri_month1
       (mkPrayer cfg dat correction1) shift
     = ishaaTime gregorianToJulianDay getHijri_month2
         (mkPrayer cfg dat correction2) shift.
Proof.
  assert (Hval :
    ishaa_t gregorianToJulianDay getHijri_month1 (mkPrayer cfg dat correction1)
    = ishaa_t gregorianToJulianDay getHijri_month2 (mkPrayer cfg dat correction2)).
  { destruct (ishaaZenith cfg) as [z |] eqn:Hz.
    - rewrite (ishaa_t_present gregorianToJulianDay getHijri_month1
                 (mkPrayer cfg dat correction1) z Hz).
      rewrite (ishaa_t_present gregorianToJulianDay getHijri_month2
                 (mkPrayer cfg dat correction2) z Hz).
      reflexivity.
    - rewrite (ishaa_t_absent gregorianToJulianDay getHijri_month1
                 (mkPrayer cfg dat correction1) Hz).
      rewrite (ishaa_t_absent gregorianToJulianDay getHijri_month2
                 (mkPrayer cfg dat correction2) Hz).
      reflexivity. }
  split; [exact Hval |].
  unfold ishaaTime. rewrite Hval. reflexivity.
Qed.

(** X15: longitude, time zone and summer time move the values and change
    no hour angle.  For two configurations built alike but for those
    three inputs, each of the six decimal-hour values of the second is the
    value of the first plus the change of the longitude difference, and
    fails exactly where the first fails. *)
Theorem values_translate_with_longitude lon lat tz st lon' tz' st'
    zenith_ref asr_madhab c c' (dat : Date) (correction : Z)
    (getHijri_month : Date -> Z -> Z) :
  PrayerConf_init lon lat tz zenith_ref asr_madhab st = inr c ->
  PrayerConf_init lon' lat tz' zenith_ref asr_madhab st' = inr c' ->
  let d := (tz' * 15 - lon') / 15 - (tz * 15 - lon) / 15 in
  let p := mkPrayer c dat correction in
  let p' := mkPrayer c' dat correction in
  fajr_t gregorianToJulianDay p'
    = (x ← fajr_t gregorianToJulianDay p; ret (x + d))
  /\ sherook_t gregorianToJulianDay p'
    = (x ← sherook_t gregorianToJulianDay p; ret (x + d))
  /\ dohr_t gregorianToJulianDay p'
    = (x ← dohr_t gregorianToJulianDay p; ret (x + d))
  /\ asr_t gregorianToJulianDay p'
    = (x ← asr_t gregorianToJulianDay p; ret (x + d))
  /\ maghreb_t gregorianToJulianDay p'
    = (x ← maghreb_t gregorianToJulianDay p; ret (x + d))
  /\ ishaa_t gregorianToJulianDay getHijri_month p'
    = (x ← ishaa_t gregorianToJulianDay getHijri_month p; ret (x + d)).
Proof.
  intros Hc Hc' d p p'.
  apply PrayerConf_init_shape in Hc, Hc'.
  assert (Hdohr : __dohrTime gregorianToJulianDay p'
                  = __dohrTime gregorianToJulianDay p + d).
  { unfold __dohrTime, __equationOfTime, p, p', d. rewrite Hc, Hc'. cbn. lra. }
  assert (Hpt : forall z, __prayerTime gregorianToJulianDay p' z
                          = __prayerTime gregorianToJulianDay p z).
  { intros z. apply prayerTime_location; unfold p, p'; rewrite Hc, Hc';
      reflexivity. }
  assert (Hasr : __asrZenith gregorianToJulianDay p'
                 = __asrZenith gregorianToJulianDay p).
  { apply asrZenith_location; unfold p, p'; rewrite Hc, Hc'; reflexivity. }
  assert (Hfz : fajrZenith (conf p') = fajrZenith (conf p))
    by (unfold p, p'; rewrite Hc, Hc'; reflexivity).
  assert (Hsz : sherookZenith (conf p') = sherookZenith (conf p))
    by (unfold p, p'; rewrite Hc, Hc'; reflexivity).
  assert (Hmz : maghrebZenith (conf p') = maghrebZenith (conf p))
    by (unfold p, p'; rewrite Hc, Hc'; reflexivity).
  assert (Hiz : ishaaZenith (conf p') = ishaaZenith (conf p))
    by (unfold p, p'; rewrite Hc, Hc'; reflexivity).
  assert (Hminus : forall z,
    (t ← __prayerTime gregorianToJulianDay p' z;
     ret (__dohrTime gregorianToJulianDay p' - t))
    = (x ← (t ← __prayerTime gregorianToJulianDay p z;
            ret (__dohrTime gregorianToJulianDay p - t)); ret (x + d))).
  { intros z. rewrite Hpt, Hdohr.
    destruct (__prayerTime gregorianToJulianDay p z); run; [reflexivity |].
    f_equal. lra. }
  assert (Hplus : forall z,
    (t ← __prayerTime gregorianToJulianDay p' z;
     ret (__dohrTime gregorianToJulianDay p' + t))
    = (x ← (t ← __prayerTime gregorianToJulianDay p z;
            ret (__dohrTime gregorianToJulianDay p + t)); ret (x + d))).
  { intros z. rewrite Hpt, Hdohr.
    destruct (__prayerTime gregorianToJulianDay p z); run; [reflexivity |].
    f_equal. lra. }
  split; [unfold fajr_t; rewrite Hfz; apply Hminus |].
  split; [unfold sherook_t; rewrite Hsz; apply Hminus |].
  split; [unfold dohr_t; run; rewrite Hdohr; reflexivity |].
  split.
  { unfold asr_t. rewrite Hasr.
    destruct (__asrZenith gregorianToJulianDay p) as [e | z]; run;
      [reflexivity | apply Hplus]. }
  split; [unfold maghreb_t; rewrite Hmz; apply Hplus |].
  destruct (ishaaZenith (conf p)) as [z |] eqn:Hz.
  - rewrite (ishaa_t_present gregorianToJulianDay getHijri_month p z Hz).
    rewrite (ishaa_t_present gregorianToJulianDay getHijri_month p' z Hiz).
    apply Hplus.
  - rewrite (ishaa_t_absent gregorianToJulianDay getHijri_month p Hz).
    rewrite (ishaa_t_absent gregorianToJulianDay getHijri_month p' Hiz).
    rewrite Hmz, Hpt, Hdohr.
    destruct (__prayerTime gregorianToJulianDay p (maghrebZenith (conf p)));
      reflexivity.
Qed.

End Dependence.

(** Fifteen degrees east in the same time zone: every value of the
    equator configuration an hour earlier. *)
Lemma values_translate_with_longitude_equator_2000 :
  PrayerConf_init 15 0 0 3 1 true
    = inr (mkPrayerConf 15 0 0 90.83333 90.83333 1 (0 * 15)
             ((0 * 15 - 15) / 15) true 109.5 (Some 107.5))
  /\ maghreb_t sample_julian_day
       (mkPrayer (mkPrayerConf 15 0 0 90.83333 90.83333 1 (0 * 15)
                    ((0 * 15 - 15) / 15) true 109.5 (Some 107.5))
          new_year_2000 0)
     = (x ← maghreb_t sample_julian_day
              (mkPrayer equator_egyptian new_year_2000 0);
        ret (x + ((0 * 15 - 15) / 15 - (0 * 15 - 0) / 15))).
Proof.
  split; [reflexivity |].
  apply (values_translate_with_longitude sample_julian_day
           0 0 0 false 15 0 true 3 1 equator_egyptian _ new_year_2000 0
           sample_getHijri_month eq_refl eq_refl).
Defined.

(** ** The symmetric references *)

Section SymmetricReferences.

Context {Date : Type}.
Variable gregorianToJulianDay : Date -> R.
Variable getHijri_month : Date -> Z -> Z.

(** X17: with one zenith for Fajr and Ishaa (the references 1 and 5),
    Fajr and Ishaa are symmetric about solar noon: when the Fajr value is
    [f], the Ishaa value exists and the mean of the two is the Dohr
    value. *)
Theorem fajr_ishaa_symmetric lon lat tz zenith_ref asr_madhab st cfg
    (dat : Date) (correction : Z) (f : R) :
  PrayerConf_init lon lat tz zenith_ref asr_madhab st = inr cfg ->
  zenith_ref = 1%Z \/ zenith_ref = 5%Z ->
  fajr_t gregorianToJulianDay (mkPrayer cfg dat correction) = inr f ->
  exists i,
    ishaa_t gregorianToJulianDay getHijri_month (mkPrayer cfg dat correction)
      = inr i
    /\ (f + i) / 2 = __dohrTime gregorianToJulianDay (mkPrayer cfg dat correction)
    /\ 0 < i - f < 24.
Proof.
  intros Hcfg Hmethod Hf.
  apply PrayerConf_init_shape in Hcfg.
  assert (Hz : ishaaZenith cfg = Some (fajrZenith cfg)).
  { rewrite Hcfg. destruct Hmethod as [-> | ->]; reflexivity. }
  unfold fajr_t in Hf. apply value_minus_inv in Hf as [t [Ht ->]].
  cbn [conf] in Ht.
  pose proof (prayerTime_bound _ _ _ _ Ht) as Hb.
  exists (__dohrTime gregorianToJulianDay (mkPrayer cfg dat correction) + t).
  rewrite (ishaa_t_present gregorianToJulianDay getHijri_month
             (mkPrayer cfg dat correction) (fajrZenith cfg) Hz).
  rewrite Ht. run. repeat split; lra.
Qed.

End SymmetricReferences.

(** Fajr and Ishaa of the Karachi reference at the equator on
    1 January 2000. *)
Lemma fajr_ishaa_symmetric_equator_2000 :
  PrayerConf_init 0 0 0 1 1 false
    = inr (mkPrayerConf 0 0 0 90.83333 90.83333 1 (0 * 15)
             ((0 * 15 - 0) / 15) false 108.0 (Some 108.0))
  /\ exists f i,
       fajr_t sample_julian_day
         (mkPrayer (mkPrayerConf 0 0 0 90.83333 90.83333 1 (0 * 15)
                      ((0 * 15 - 0) / 15) false 108.0 (Some 108.0))
            new_year_2000 0) = inr f
       /\ ishaa_t sample_julian_day sample_getHijri_month
            (mkPrayer (mkPrayerConf 0 0 0 90.83333 90.83333 1 (0 * 15)
                         ((0 * 15 - 0) / 15) false 108.0 (Some 108.0))
               new_year_2000 0) = inr i
       /\ (f + i) / 2
          = __dohrTime sample_julian_day
              (mkPrayer (mkPrayerConf 0 0 0 90.83333 90.83333 1 (0 * 15)
                           ((0 * 15 - 0) / 15) false 108.0 (Some 108.0))
                 new_year_2000 0)
       /\ 0 < i - f < 24.
Proof.
  split; [reflexivity |].
  set (cfg := mkPrayerConf 0 0 0 90.83333 90.83333 1 (0 * 15)
                ((0 * 15 - 0) / 15) false 108.0 (Some 108.0)).
  pose (self := mkPrayer cfg new_year_2000 0).
  assert (Hf : fajr_t sample_julian_day self
               = inr (__dohrTime sample_julian_day self
                      - hour_angle (dcos 108.0 / dcos
                          (180 / (4 * atan 1) * asin (sin_declination 2451544.5))))).
  { unfold fajr_t.
    rewrite (equator_prayerTime self eq_refl eq_refl)
      by (apply zenith_cosine_range; cbn; lra).
    reflexivity. }
  destruct (fajr_ishaa_symmetric sample_julian_day sample_getHijri_month
              0 0 0 1 1 false cfg new_year_2000 0 _ eq_refl
              (or_introl eq_refl) Hf) as [i Hi].
  eexists. exists i. split; [exact Hf | exact Hi].
Defined.
